(** * avalanchejs: identity helpers, fee accounting and the AVACore middleware

    A shallow embedding of [src/utils/helperfunctions.ts] and of the
    [AVACore] class, with the properties of their specification.

    Conventions of the embedding.
    - A JavaScript [number] is an integer [Z]; only integers in the safe
      range occur as ports, network ids, byte lengths and gas costs.
      [pretty] is their decimal rendering, as [String(n)] gives it.
    - A [Buffer] is a [list byte], a JavaScript string a [string].
    - [undefined] is [None] for optional arguments and unset fields, and
      [VUndefined] inside the untyped values handed to the transport.
    - A thrown exception is the [Throw] branch of [Result]; a promise is its
      eventual outcome, [Fulfilled] or [Rejected].
    - A request configuration is a [gmap] over its own properties. The
      registry of modules, a plain object read by any label, is modelled
      with its own properties and its prototype, so that a read also
      finds inherited members.
    - Calls that leave the middleware (the transport, a module constructor)
      are recorded in a trace, next to the value they return. *)

From Stdlib Require Import ZArith NArith Lia Ascii String List.
From Stdlib Require Import Strings.Byte.
From stdpp Require Import base option list strings gmap pretty.

Set Warnings "-register-all".

Local Open Scope string_scope.
Local Open Scope list_scope.
Local Open Scope Z_scope.

(** ** JavaScript values *)

Module JS.

Abbreviation Buffer := (list byte).

#[global] Instance byte_eqdec : EqDecision byte := byte_eq_dec.

(** Untyped values, for the [object] and [any] typed parameters. *)
Inductive Val : Type :=
| VUndefined
| VString (s : string)
| VNumber (n : Z)
| VBuffer (b : Buffer)
| VObject (props : list (string * Val)).

(** The object literal [{}]. *)
Definition emptyObject : Val := VObject [].

(** A default parameter value [x = d] replaces [undefined] only. *)
Definition orDefault (d v : Val) : Val :=
  match v with
  | VUndefined => d
  | _ => v
  end.

(** Outcome of a call that may throw. *)
Inductive Result (E A : Type) : Type :=
| Return (a : A)
| Throw (e : E).
Arguments Return {E A} a.
Arguments Throw {E A} e.

(** Outcome of a promise; a rejection carries any value. *)
Inductive Promise (A : Type) : Type :=
| Fulfilled (a : A)
| Rejected (reason : Val).
Arguments Fulfilled {A} a.
Arguments Rejected {A} reason.

(** [p.then(f)] for a callback that does not throw. *)
Definition then_ {A B} (p : Promise A) (f : A -> B) : Promise B :=
  match p with
  | Fulfilled a => Fulfilled (f a)
  | Rejected r => Rejected r
  end.

(** [s.startsWith(p)] *)
Fixpoint startsWith (s p : string) {struct p} : bool :=
  match p, s with
  | EmptyString, _ => true
  | String _ _, EmptyString => false
  | String b p', String a s' => if Ascii.eqb a b then startsWith s' p' else false
  end.

(** [s.split(sep)] for a separator of one character: the segments between
    the occurrences of [sep], in order; never an empty array. *)
Fixpoint split (sep : ascii) (s : string) : list string :=
  match s with
  | EmptyString => [EmptyString]
  | String c s' =>
      if Ascii.eqb c sep then EmptyString :: split sep s'
      else match split sep s' with
           | seg :: rest => String c seg :: rest
           | [] => [String c EmptyString]
           end
  end.

(** [s.includes(t)] *)
Fixpoint includes (s t : string) : bool :=
  startsWith s t ||
  match s with
  | EmptyString => false
  | String _ s' => includes s' t
  end.

(** A value of type [number | undefined] as a string: in a template
    literal, as a property key, as an operand of [+] next to a string. *)
Definition numOf (n : option Z) : string :=
  match n with
  | Some z => pretty z
  | None => "undefined"
  end.

(** The same for a value of type [string | undefined]. *)
Definition strOf (f : option string) : string :=
  match f with
  | Some s => s
  | None => "undefined"
  end.

(** A computation that records the external calls it makes. *)
Definition Traced (Ev A : Type) : Type := A * list Ev.
Definition ret {Ev A} (a : A) : Traced Ev A := (a, []).
Definition bind {Ev A B} (m : Traced Ev A) (k : A -> Traced Ev B) : Traced Ev B :=
  let '(a, t1) := m in let '(b, t2) := k a in (b, t1 ++ t2).
Definition call {Ev A} (e : Ev) (answer : A) : Traced Ev A := (answer, [e]).

End JS.

Import JS.

(** ** utils/bintools *)

Module Bintools.

(** Modelled from the spec: the [BinTools] singleton of [utils/bintools],
    of which the helpers use the checksummed base58 codec. [cb58Decode]
    fails ([None]) on a string that is not base58 or whose checksum does
    not match. *)
Class BinTools := {
  cb58Encode : Buffer -> string;
  cb58Decode : string -> option Buffer
}.

(** Modelled from the spec: the base58 alphabet of the identifier
    strings. *)
Definition alphabet : list ascii :=
  list_ascii_of_string "123456789ABCDEFGHJKLMNPQRSTUVWXYZabcdefghijkmnopqrstuvwxyz".

(** Every character of [s] is a base58 character. *)
Definition isBase58 (s : string) : Prop :=
  Forall (fun c => c ∈ alphabet) (list_ascii_of_string s).

Local Open Scope N_scope.

(** The character of a digit, and the digit of a character. *)
Definition charOf (d : N) : ascii := nth (N.to_nat d) alphabet "1"%char.

Fixpoint indexIn (l : list ascii) (c : ascii) : option N :=
  match l with
  | [] => None
  | a :: l' => if Ascii.eqb a c then Some 0 else N.succ <$> indexIn l' c
  end.

Definition indexOf (c : ascii) : option N := indexIn alphabet c.

(** Digits of [n] in base [base], most significant first; none for 0. *)
Fixpoint toDigits_go (fuel : nat) (base n : N) (acc : list N) : list N :=
  match fuel with
  | O => acc
  | S fuel' =>
      if n =? 0 then acc
      else toDigits_go fuel' base (n / base) (n mod base :: acc)
  end.

Definition toDigits (base n : N) : list N :=
  toDigits_go (N.to_nat (N.size n)) base n [].

(** The number a list of digits writes, most significant first. *)
Definition ofDigits (base : N) (ds : list N) : N :=
  fold_left (fun acc d => acc * base + d) ds 0.

(** Number of leading elements equal to [z]. *)
Fixpoint leading {A} `{EqDecision A} (z : A) (l : list A) : nat :=
  match l with
  | a :: l' => if decide (a = z) then S (leading z l') else O
  | [] => O
  end.

Definition byteOf (d : N) : byte := default "000"%byte (Byte.of_N d).

(** Modelled from the spec: base58 of a buffer. The buffer is read as a
    big-endian number; each leading zero byte is kept as a leading '1'. *)
Definition bufferToB58 (b : Buffer) : string :=
  string_of_list_ascii
    (replicate (leading "000"%byte b) "1"%char
     ++ (charOf <$> toDigits 58 (ofDigits 256 (Byte.to_N <$> b)))).

(** Modelled from the spec: the inverse reading; fails on a character
    outside the alphabet. *)
Definition b58ToBuffer (s : string) : option Buffer :=
  ds ← mapM indexOf (list_ascii_of_string s);
  Some (replicate (leading 0 ds) "000"%byte
        ++ (byteOf <$> toDigits 256 (ofDigits 58 ds))).

(** Modelled from the spec: the checksum, a fixed function from the
    payload to four bytes. *)
Class Checksum := { checksum : Buffer -> Buffer }.

(** Modelled from the spec: encoding appends the checksum to the payload
    and base58-encodes the concatenation. *)
Definition cb58EncodeWith `{Checksum} (b : Buffer) : string :=
  bufferToB58 (b ++ checksum b).

(** Modelled from the spec: decoding splits off the trailing four bytes,
    recomputes the checksum of the rest and fails when they differ. *)
Definition cb58DecodeWith `{Checksum} (s : string) : option Buffer :=
  bytes ← b58ToBuffer s;
  if decide (length bytes < 4)%nat then None
  else
    let payload := take (length bytes - 4) bytes in
    let claimed := drop (length bytes - 4) bytes in
    if decide (checksum payload = claimed) then Some payload else None.

Definition cb58 `{Checksum} : BinTools :=
  {| cb58Encode := cb58EncodeWith; cb58Decode := cb58DecodeWith |}.

(** A checksum to run the codec with: the sum of the bytes, as four
    big-endian bytes. *)
Definition byteSum (b : Buffer) : N := fold_right (fun x s => Byte.to_N x + s) 0 b.

Definition sum32 (b : Buffer) : Buffer :=
  let s := byteSum b in
  [byteOf (s / 16777216 mod 256); byteOf (s / 65536 mod 256);
   byteOf (s / 256 mod 256); byteOf (s mod 256)].

Definition sum32Checksum : Checksum := {| checksum := sum32 |}.

End Bintools.

Import Bintools.

(** ** utils/helperfunctions.ts *)

Module HelperFunctions.

(** Modelled from the spec: the per-chain and per-network defaults of
    [utils/constants], reduced to the byte-gas price the helpers read. *)
Record ChainDefaults := { txBytesGas : Z }.
Record NetworkDefaults := { C : ChainDefaults }.

(** Modelled from the spec: the static configuration of [utils/constants].
    The tables are written with integer keys. *)
Class Constants := {
  NetworkIDToHRP_entries : gmap Z string;
  DefaultNetworkID : Z;
  FallbackHRP : string;
  Defaults_network : gmap Z NetworkDefaults
}.

(** The object [NetworkIDToHRP]: its property keys are the decimal
    renderings of the integer keys it is written with. *)
Definition NetworkIDToHRP `{Constants} : gmap string string :=
  kmap (pretty : Z -> string) NetworkIDToHRP_entries.

(** Modelled from the spec: the errors of [utils/errors], and the two
    failures that come from outside this file. *)
Inductive Error : Type :=
| PrivateKeyError (message : string)
| NodeIdError (message : string)
| DecodeError
| TypeError.

(** Modelled from the spec: of the transaction types of [apis/evm], the
    serialized bytes, the network id and the cost each input reports. *)
Record TransferableInput := { getCost : Z }.
Record ImportTx := {
  getNetworkID : Z;
  getImportInputs : list TransferableInput
}.
Record UnsignedTx := {
  toBuffer : Buffer;
  getTransaction : ImportTx
}.

Definition byteLength (b : Buffer) : Z := Z.of_nat (length b).

(** [networkID in NetworkIDToHRP] *)
Definition inNetworkIDToHRP `{Constants} (networkID : option Z) : bool :=
  bool_decide (is_Some (NetworkIDToHRP !! numOf networkID)).

(** The result is a string, or [undefined] when the default network id is
    itself not in the table. *)
Definition getPreferredHRP `{Constants} (networkID : option Z) : option string :=
  if inNetworkIDToHRP networkID then
    NetworkIDToHRP !! numOf networkID
  else if bool_decide (networkID = None) then
    NetworkIDToHRP !! numOf (Some DefaultNetworkID)
  else Some FallbackHRP.

Definition bufferToPrivateKeyString `{BinTools} (pk : Buffer) : string :=
  "PrivateKey-" +:+ cb58Encode pk.

(** [bintools.cb58Decode(pksplit[pksplit.length - 1])] *)
Definition decodeLast `{BinTools} (pksplit : list string) : Result Error Buffer :=
  match last pksplit with
  | Some seg =>
      match cb58Decode seg with
      | Some b => Return b
      | None => Throw DecodeError
      end
  | None => Throw TypeError
  end.

Definition privateKeyStringToBuffer `{BinTools} (pk : string) : Result Error Buffer :=
  if negb (startsWith pk "PrivateKey-") then
    Throw (PrivateKeyError
      "Error - privateKeyStringToBuffer: private keys must start with 'PrivateKey-'")
  else
    let pksplit := split "-" pk in
    decodeLast pksplit.

Definition bufferToNodeIDString `{BinTools} (pk : Buffer) : string :=
  "NodeID-" +:+ cb58Encode pk.

Definition NodeIDStringToBuffer `{BinTools} (pk : string) : Result Error Buffer :=
  if negb (startsWith pk "NodeID-") then
    Throw (NodeIdError
      "Error - privateNodeIDToBuffer: nodeID must start with 'NodeID-'")
  else
    let pksplit := split "-" pk in
    decodeLast pksplit.

(** [len * Defaults.network[1].C["txBytesGas"]]; reading [.C] of a missing
    entry throws. *)
Definition calcBytesCost `{Constants} (len : Z) : Result Error Z :=
  match Defaults_network !! 1 with
  | Some net => Return (len * txBytesGas (C net))
  | None => Throw TypeError
  end.

Definition costImportTx `{Constants} (tx : UnsignedTx) : Result Error Z :=
  match calcBytesCost (byteLength (toBuffer tx)) with
  | Return cost =>
      let importTx := getTransaction tx in
      Return (fold_left (fun cost input => let inCost := getCost input in cost + inCost)
                        (getImportInputs importTx) cost)
  | Throw e => Throw e
  end.

(** [BN.min] of bn.js, on integers of any size: the left operand when it
    compares below the right one, else the right one. *)
Definition BN_min (left right : Z) : Z :=
  if left <? right then left else right.

(** [BN.min(staked.mul(new BN(5)), cap)] *)
Definition MaxWeightFormula (staked cap : Z) : Z :=
  BN_min (staked * 5) cap.

End HelperFunctions.

(** ** The AVACore middleware *)

Module AVACore.

(** Modelled from the spec: the request configuration of the transport
    (axios), an object read by property name. *)
Abbreviation AxiosRequestConfig := (gmap string Val).

(** Modelled from the spec: what the transport reports for a request it
    completed. *)
Record AxiosResponse := {
  resp_data : Val;
  resp_status : Z;
  resp_statusText : string;
  resp_headers : Val;
  resp_config : AxiosRequestConfig;
  resp_request : Val
}.

(** Modelled from the spec: the transport itself, [axios.request]. *)
Class Axios := { axios_request : AxiosRequestConfig -> Promise AxiosResponse }.

(** Modelled from the spec: [RequestResponseData] of [utils/types]. *)
Record RequestResponseData := {
  data : Val;
  headers : Val;
  request : Val;
  status : Z;
  statusText : string
}.

(** Modelled from the spec: a registered module is opaque to the
    middleware. Of an instance only the names of its members count here:
    its own and those of its classes, other than what it inherits from
    [Object.prototype] in the end. Its members are ordinary writable data
    properties. *)
Class Members (API : Type) := { hasMember : API -> string -> bool }.

(** The data members of [Object.prototype]; every plain object inherits
    them, and the accessor [__proto__] beside them. *)
Definition objectPrototypeMembers : list string :=
  ["constructor"; "__defineGetter__"; "__defineSetter__"; "hasOwnProperty";
   "__lookupGetter__"; "__lookupSetter__"; "isPrototypeOf"; "propertyIsEnumerable";
   "toString"; "valueOf"; "toLocaleString"].

Section Middleware.

(** The type of the registered modules, [API] of [utils/types]. *)
Context {API : Type}.

(** What a read of a property of the registry can give: a module instance,
    the object [Object.prototype], one of its members, or a member of a
    module instance. *)
Inductive Value : Type :=
| Instance (inst : API)
| ObjectPrototype
| Builtin (name : string)
| MemberOf (inst : API) (name : string).

(** The registry object: the properties assigned to it, and its
    prototype, [Object.prototype] ([None]) or a module instance. *)
Record Dict := {
  own : gmap string API;
  prototype : option API
}.

(** The object literal [{}] the field [apis] starts as. *)
Definition emptyDict : Dict := {| own := ∅; prototype := None |}.

(** [d[name] = inst]: an own property, but for [__proto__], whose
    inherited setter makes the instance the prototype. *)
Definition dictSet (name : string) (inst : API) (d : Dict) : Dict :=
  if bool_decide (name = "__proto__") then
    {| own := own d; prototype := Some inst |}
  else
    {| own := <[name := inst]> (own d); prototype := prototype d |}.

(** [Object.prototype[name]], for a name other than [__proto__]. *)
Definition inObjectPrototype (name : string) : option Value :=
  if bool_decide (name ∈ objectPrototypeMembers) then Some (Builtin name) else None.

(** [d[name]]: the prototype for [__proto__]; else the own property, else
    what the prototype chain has under the name, else [undefined]. *)
Definition dictGet `{Members API} (d : Dict) (name : string) : option Value :=
  if bool_decide (name = "__proto__") then
    match prototype d with
    | Some inst => Some (Instance inst)
    | None => Some ObjectPrototype
    end
  else
    match own d !! name with
    | Some inst => Some (Instance inst)
    | None =>
        match prototype d with
        | Some inst =>
            if hasMember inst name then Some (MemberOf inst name)
            else inObjectPrototype name
        | None => inObjectPrototype name
        end
    end.

Record AVACore := {
  protocol : option string;
  ip : option string;
  port : option Z;
  url : option string;
  apis : Dict
}.

(** The object before the constructor body runs. *)
Definition blank : AVACore :=
  {| protocol := None; ip := None; port := None; url := None; apis := emptyDict |}.

Definition setAddress (this : AVACore) (ip' : string) (port' : Z)
    (protocol' : option string) : AVACore :=
  let protocol' := default "http" protocol' in
  {| ip := Some ip';
     port := Some port';
     protocol := Some protocol';
     url := Some ((((protocol' +:+ "://") +:+ ip') +:+ ":") +:+ pretty port');
     apis := apis this |}.

Definition getProtocol (this : AVACore) : option string := protocol this.
Definition getIP (this : AVACore) : option string := ip this.
Definition getPort (this : AVACore) : option Z := port this.
Definition getURL (this : AVACore) : option string := url this.

(** A module class: called with the middleware and, when the second
    argument is [Some], a base path. It does not touch the middleware
    while it constructs. *)
Definition Factory : Type := AVACore -> option string -> API.

(** One [new constructorFN(...)], with its arguments. *)
Record Construction := { new_ava : AVACore; new_baseurl : option string }.

Definition addAPI (this : AVACore) (apiName : string) (constructorFN : Factory)
    (baseurl : option string) : Traced Construction AVACore :=
  let store inst :=
    ret {| protocol := protocol this; ip := ip this; port := port this;
           url := url this; apis := dictSet apiName inst (apis this) |} in
  match baseurl with
  | None =>
      bind (call {| new_ava := this; new_baseurl := None |}
                 (constructorFN this None)) store
  | Some b =>
      bind (call {| new_ava := this; new_baseurl := Some b |}
                 (constructorFN this (Some b))) store
  end.

Definition api `{Members API} (this : AVACore) (apiName : string) : option Value :=
  dictGet (apis this) apiName.

(** The callback of [_request]: the response without the transport's own
    [config]. *)
Definition purge (resp : AxiosResponse) : RequestResponseData :=
  {| data := resp_data resp;
     headers := resp_headers resp;
     request := resp_request resp;
     status := resp_status resp;
     statusText := resp_statusText resp |}.

(** The configuration [_request] hands to the transport. With an override
    the five assignments are made on the caller's own object, which is the
    object issued. *)
Definition requestConfig (this : AVACore) (xhrmethod baseurl : string)
    (getdata postdata headers' : Val) (axiosConfig : option AxiosRequestConfig)
    : AxiosRequestConfig :=
  let headers' := orDefault emptyObject headers' in
  let config :=
    match axiosConfig with
    | Some c => c
    | None =>
        {[ "baseURL" := VString ((((strOf (protocol this) +:+ "://") +:+ strOf (ip this))
                                    +:+ ":") +:+ numOf (port this));
           "responseType" := VString "text" ]}
    end in
  let config := <["url" := VString baseurl]> config in
  let config := <["method" := VString xhrmethod]> config in
  let config := <["headers" := headers']> config in
  let config := <["data" := postdata]> config in
  let config := <["params" := getdata]> config in
  config.

Definition _request `{Axios} (this : AVACore) (xhrmethod baseurl : string)
    (getdata postdata headers' : Val) (axiosConfig : option AxiosRequestConfig)
    : Traced AxiosRequestConfig (Promise RequestResponseData) :=
  let config := requestConfig this xhrmethod baseurl getdata postdata headers' axiosConfig in
  bind (call config (axios_request config)) (fun p => ret (then_ p purge)).

Definition get `{Axios} (this : AVACore) (baseurl : string) (getdata headers' : Val)
    (axiosConfig : option AxiosRequestConfig) :=
  _request this "GET" baseurl getdata emptyObject (orDefault emptyObject headers') axiosConfig.

Definition delete `{Axios} (this : AVACore) (baseurl : string) (getdata headers' : Val)
    (axiosConfig : option AxiosRequestConfig) :=
  _request this "DELETE" baseurl getdata emptyObject (orDefault emptyObject headers') axiosConfig.

Definition post `{Axios} (this : AVACore) (baseurl : string) (getdata postdata headers' : Val)
    (axiosConfig : option AxiosRequestConfig) :=
  _request this "POST" baseurl getdata postdata (orDefault emptyObject headers') axiosConfig.

Definition put `{Axios} (this : AVACore) (baseurl : string) (getdata postdata headers' : Val)
    (axiosConfig : option AxiosRequestConfig) :=
  _request this "PUT" baseurl getdata postdata (orDefault emptyObject headers') axiosConfig.

Definition patch `{Axios} (this : AVACore) (baseurl : string) (getdata postdata headers' : Val)
    (axiosConfig : option AxiosRequestConfig) :=
  _request this "PATCH" baseurl getdata postdata (orDefault emptyObject headers') axiosConfig.

Definition constructor (ip' : string) (port' : Z) (protocol' : option string) : AVACore :=
  let protocol' := default "http" protocol' in
  setAddress blank ip' port' (Some protocol').

(** The calls that change a middleware object, and a run of them. *)
Inductive Call : Type :=
| CallSetAddress (ip' : string) (port' : Z) (protocol' : option string)
| CallAddAPI (apiName : string) (constructorFN : Factory) (baseurl : option string).

Definition step (this : AVACore) (c : Call) : AVACore :=
  match c with
  | CallSetAddress ip' port' protocol' => setAddress this ip' port' protocol'
  | CallAddAPI apiName constructorFN baseurl =>
      fst (addAPI this apiName constructorFN baseurl)
  end.

Definition run (this : AVACore) (cs : list Call) : AVACore := fold_left step cs this.

Definition registers (label : string) (c : Call) : Prop :=
  match c with
  | CallSetAddress _ _ _ => False
  | CallAddAPI apiName _ _ => apiName = label
  end.

End Middleware.

Arguments AVACore : clear implicits.
Arguments Value : clear implicits.
Arguments Dict : clear implicits.
Arguments Factory : clear implicits.
Arguments Construction : clear implicits.
Arguments Call : clear implicits.

End AVACore.

Import HelperFunctions AVACore.

(** ** The specification's own terms *)

Module Spec.

(** An identifier string has the literal prefix [p]. *)
Definition hasPrefix (p s : string) : Prop := exists rest, s = p +:+ rest.

(** A format error of kind [mk] whose message names the prefix [p]. *)
Definition formatError {A} (mk : string -> Error) (p : string) (r : Result Error A) : Prop :=
  exists message, r = Throw (mk message) /\ includes message p = true.

(** The sum of the costs the inputs report. *)
Definition inputCosts (ins : list TransferableInput) : Z :=
  foldr (fun input s => getCost input + s) 0 ins.

(** The byte-gas rate of a network in the fee table. *)
Definition byteGasRate `{Constants} (networkID : Z) : option Z :=
  (fun net => txBytesGas (C net)) <$> Defaults_network !! networkID.

(** [proto://ip:port] *)
Definition baseURL (proto ip : string) (port : Z) : string :=
  String.concat "" [proto; "://"; ip; ":"; pretty port].

(** What a caller sees of a call that issued [config] and nothing else:
    the Canonical Response when the transport completes the request, the
    transport's own reason when it fails. *)
Definition canonical `{Axios} (config : AxiosRequestConfig)
    (r : Traced AxiosRequestConfig (Promise RequestResponseData)) : Prop :=
  snd r = [config]
  /\ (forall resp, axios_request config = Fulfilled resp ->
       fst r = Fulfilled {| data := resp_data resp;
                            headers := resp_headers resp;
                            request := resp_request resp;
                            status := resp_status resp;
                            statusText := resp_statusText resp |})
  /\ (forall reason, axios_request config = Rejected reason -> fst r = Rejected reason).

(** The getters of [this] agree: the URL is the one its IP, port and
    protocol make. *)
Definition consistent {API} (this : AVACore API) : Prop :=
  exists ip' port' proto,
    getIP this = Some ip' /\ getPort this = Some port' /\ getProtocol this = Some proto
    /\ getURL this = Some (baseURL proto ip' port').

(** The five fields of a request configuration every call sets. *)
Definition callFields : list string := ["url"; "method"; "headers"; "data"; "params"].

(** The call is a [setAddress]. *)
Definition setsAddress {API} (c : Call API) : Prop :=
  match c with
  | CallSetAddress _ _ _ => True
  | CallAddAPI _ _ _ => False
  end.

(** The call [r] issued one request, with this method, url, query params
    and body. *)
Definition issues (r : Traced AxiosRequestConfig (Promise RequestResponseData))
    (m u : string) (g p : Val) : Prop :=
  exists config, snd r = [config]
    /\ config !! "method" = Some (VString m)
    /\ config !! "url" = Some (VString u)
    /\ config !! "params" = Some g
    /\ config !! "data" = Some p.

(** The registry [d] inherits a member under [name]: the accessor
    [__proto__], a member of [Object.prototype], or a member of the module
    instance that is its prototype. *)
Definition inherits {API} `{Members API} (d : Dict API) (name : string) : Prop :=
  name = "__proto__"
  \/ name ∈ objectPrototypeMembers
  \/ exists inst, prototype d = Some inst /\ hasMember inst name = true.

(** The registry [d] holds [inst] under [label]: as its prototype for
    [__proto__], as an own property otherwise. *)
Definition holds {API} (d : Dict API) (label : string) (inst : API) : Prop :=
  if bool_decide (label = "__proto__") then prototype d = Some inst
  else own d !! label = Some inst.

(** The labels a run of calls registers. *)
Definition registered {API} (label : string) (cs : list (Call API)) : Prop :=
  Exists (registers label) cs.

End Spec.

(** ** Sample configurations and transports *)

Module Samples.

Definition chain (rate : Z) : NetworkDefaults := {| C := {| txBytesGas := rate |} |}.

(** A configuration in the shape of [utils/constants]. *)
Definition constants : Constants :=
  {| NetworkIDToHRP_entries :=
       {[ 0 := "custom"; 1 := "avax"; 5 := "fuji"; 12345 := "local" ]};
     DefaultNetworkID := 1;
     FallbackHRP := "custom";
     Defaults_network := {[ 1 := chain 1; 5 := chain 1; 12345 := chain 1 ]} |}.

(** The same with a byte-gas price of its own for network 5. *)
Definition skewed : Constants :=
  {| NetworkIDToHRP_entries := NetworkIDToHRP_entries (Constants := constants);
     DefaultNetworkID := 1;
     FallbackHRP := "custom";
     Defaults_network := {[ 1 := chain 1; 5 := chain 2 ]} |}.

(** An import of two inputs on network 5, three bytes long. *)
Definition fujiImport : UnsignedTx :=
  {| toBuffer := ["001"; "002"; "003"]%byte;
     getTransaction :=
       {| getNetworkID := 5;
          getImportInputs := [ {| getCost := 1000 |}; {| getCost := 2000 |} ] |} |}.

Definition okResponse (config : AxiosRequestConfig) : AxiosResponse :=
  {| resp_data := VString "ok";
     resp_status := 200;
     resp_statusText := "OK";
     resp_headers := emptyObject;
     resp_config := config;
     resp_request := VUndefined |}.

(** Modules that are numbers here, with no members of their own. *)
Definition plain : Members nat := {| hasMember := fun _ _ => false |}.

(** A stub transport that answers every request with status 200. *)
Definition stub : Axios := {| axios_request := fun config => Fulfilled (okResponse config) |}.

(** A transport that is down. *)
Definition down : Axios :=
  {| axios_request := fun _ => Rejected (VString "Network Error") |}.

End Samples.

(** * Properties *)

(** ** Strings *)

Section Strings.

Lemma append_assoc (s t u : string) : (s +:+ t) +:+ u = s +:+ t +:+ u.
Proof.
  induction s as [|c s IH]; [reflexivity|].
  change (String c ((s +:+ t) +:+ u) = String c (s +:+ t +:+ u)).
  rewrite IH. reflexivity.
Qed.

Lemma startsWith_app (p rest : string) : startsWith (p +:+ rest) p = true.
Proof.
  induction p as [|a p IH]; simpl.
  - reflexivity.
  - rewrite Ascii.eqb_refl. exact IH.
Qed.

Lemma startsWith_hasPrefix (s p : string) :
  startsWith s p = true <-> Spec.hasPrefix p s.
Proof.
  split.
  - revert s. induction p as [|b p IH]; intros s Hs.
    + exists s. reflexivity.
    + destruct s as [|a s]; simpl in Hs; [discriminate|].
      destruct (Ascii.eqb a b) eqn:Hab; [|discriminate].
      apply Ascii.eqb_eq in Hab. subst b.
      destruct (IH s Hs) as [rest ->]. exists rest. reflexivity.
  - intros [rest ->]. apply startsWith_app.
Qed.

Lemma split_nonempty (sep : ascii) (s : string) : split sep s <> [].
Proof.
  destruct s as [|c s]; simpl; [discriminate|].
  destruct (Ascii.eqb c sep); [discriminate|].
  destruct (split sep s); discriminate.
Qed.

(** A string without the separator is a single segment. *)
Lemma split_single (sep : ascii) (s : string) :
  sep ∉ list_ascii_of_string s -> split sep s = [s].
Proof.
  induction s as [|c s IH]; simpl; intros Hs.
  - reflexivity.
  - apply not_elem_of_cons in Hs as [Hc Hs].
    destruct (Ascii.eqb c sep) eqn:E.
    + apply Ascii.eqb_eq in E. congruence.
    + rewrite (IH Hs). reflexivity.
Qed.

(** Splitting distributes over a separator in the middle. *)
Lemma split_app (sep : ascii) (s t : string) :
  split sep (s +:+ String sep t) = split sep s ++ split sep t.
Proof.
  induction s as [|c s IH]; simpl.
  - rewrite Ascii.eqb_refl. reflexivity.
  - destruct (Ascii.eqb c sep).
    + rewrite IH. reflexivity.
    + rewrite IH. pose proof (split_nonempty sep s) as Hne.
      destruct (split sep s) as [|seg rest]; [congruence|]. reflexivity.
Qed.

Lemma last_split (sep : ascii) (s t : string) :
  sep ∉ list_ascii_of_string t ->
  last (split sep (s +:+ String sep t)) = Some t.
Proof.
  intros Ht. rewrite split_app, (split_single sep t Ht). apply last_snoc.
Qed.

Lemma dash_not_base58 : "-"%char ∉ alphabet.
Proof. refine (bool_decide_unpack _ _). vm_compute. exact I. Qed.

Lemma isBase58_no_dash (s : string) :
  isBase58 s -> "-"%char ∉ list_ascii_of_string s.
Proof.
  unfold isBase58. intros Hs Hin.
  rewrite Forall_forall in Hs. exact (dash_not_base58 (Hs _ Hin)).
Qed.

End Strings.

(** ** Positional numerals *)

Section Numerals.

Local Open Scope N_scope.

Variable base : N.
Hypothesis base_ge_2 : 2 <= base.

Lemma toDigits_go_acc (fuel : nat) (n : N) (acc : list N) :
  toDigits_go fuel base n acc = toDigits_go fuel base n [] ++ acc.
Proof.
  revert n acc. induction fuel as [|fuel IH]; intros n acc; simpl.
  - reflexivity.
  - destruct (n =? 0); [reflexivity|].
    rewrite (IH _ (_ :: acc)), (IH _ [_]), <- app_assoc. reflexivity.
Qed.

Lemma div_base_lt_pow2 (n : N) (k : nat) :
  n < 2 ^ N.of_nat (S k) -> n / base < 2 ^ N.of_nat k.
Proof.
  rewrite Nat2N.inj_succ, N.pow_succ_r'. intros Hn.
  apply N.Div0.div_lt_upper_bound. nia.
Qed.

(** Any fuel that bounds the size of [n] gives the same digits. *)
Lemma toDigits_go_fuel (f1 f2 : nat) (n : N) (acc : list N) :
  n < 2 ^ N.of_nat f1 -> n < 2 ^ N.of_nat f2 ->
  toDigits_go f1 base n acc = toDigits_go f2 base n acc.
Proof.
  revert f2 n acc. induction f1 as [|f1 IH]; intros f2 n acc H1 H2.
  - assert (n = 0) as -> by (simpl in H1; lia).
    destruct f2; reflexivity.
  - destruct f2 as [|f2].
    + assert (n = 0) as -> by (simpl in H2; lia). reflexivity.
    + simpl. destruct (n =? 0); [reflexivity|].
      apply IH; apply div_base_lt_pow2; assumption.
Qed.

Lemma toDigits_0 : toDigits base 0 = [].
Proof. reflexivity. Qed.

Lemma toDigits_step (n : N) :
  n <> 0 -> toDigits base n = toDigits base (n / base) ++ [n mod base].
Proof.
  intros Hn. unfold toDigits.
  pose proof (N.size_gt n) as Hsz.
  rewrite <- (N2Nat.id (N.size n)) in Hsz.
  destruct (N.to_nat (N.size n)) as [|f].
  - simpl in Hsz. lia.
  - simpl. apply N.eqb_neq in Hn. rewrite Hn.
    rewrite toDigits_go_acc. f_equal.
    apply toDigits_go_fuel.
    + apply div_base_lt_pow2, Hsz.
    + rewrite N2Nat.id. apply N.size_gt.
Qed.

Lemma ofDigits_snoc (ds : list N) (d : N) :
  ofDigits base (ds ++ [d]) = ofDigits base ds * base + d.
Proof. unfold ofDigits. rewrite fold_left_app. reflexivity. Qed.

Lemma ofDigits_zeros (k : nat) (ds : list N) :
  ofDigits base (replicate k 0 ++ ds) = ofDigits base ds.
Proof. induction k as [|k IH]; [reflexivity|exact IH]. Qed.

Lemma ofDigits_toDigits (n : N) : ofDigits base (toDigits base n) = n.
Proof.
  induction (N.lt_wf_0 n) as [n _ IH].
  destruct (N.eq_dec n 0) as [->|Hn]; [reflexivity|].
  rewrite toDigits_step, ofDigits_snoc by assumption.
  rewrite IH by (apply N.div_lt; lia).
  pose proof (N.div_mod' n base). lia.
Qed.

Lemma toDigits_bound (n : N) : Forall (fun d => d < base) (toDigits base n).
Proof.
  induction (N.lt_wf_0 n) as [n _ IH].
  destruct (N.eq_dec n 0) as [->|Hn]; [constructor|].
  rewrite toDigits_step by assumption.
  apply Forall_app. split.
  - apply IH, N.div_lt; lia.
  - repeat constructor. apply N.mod_lt. lia.
Qed.

Lemma toDigits_nil (n : N) : toDigits base n = [] -> n = 0.
Proof.
  intros H. destruct (N.eq_dec n 0) as [|Hn]; [assumption|].
  rewrite toDigits_step in H by assumption.
  destruct (toDigits base (n / base)); discriminate.
Qed.

(** The first digit is not 0. *)
Lemma toDigits_head (n : N) : head (toDigits base n) <> Some 0.
Proof.
  induction (N.lt_wf_0 n) as [n _ IH].
  destruct (N.eq_dec n 0) as [->|Hn]; [discriminate|].
  rewrite toDigits_step by assumption.
  destruct (toDigits base (n / base)) as [|d ds] eqn:E.
  - apply toDigits_nil in E. simpl. intros [= H].
    pose proof (N.div_mod' n base). nia.
  - simpl. specialize (IH (n / base)). rewrite E in IH.
    apply IH, N.div_lt; lia.
Qed.

Lemma toDigits_ofDigits (ds : list N) :
  Forall (fun d => d < base) ds -> head ds <> Some 0 ->
  toDigits base (ofDigits base ds) = ds.
Proof.
  induction ds as [|d ds IH] using rev_ind; intros Hb Hh; [reflexivity|].
  apply Forall_app in Hb as [Hb Hd]. apply Forall_inv in Hd. simpl in Hd.
  rewrite ofDigits_snoc.
  assert (Hq : (ofDigits base ds * base + d) / base = ofDigits base ds).
  { rewrite N.div_add_l by lia. rewrite N.div_small by assumption. lia. }
  assert (Hr : (ofDigits base ds * base + d) mod base = d).
  { rewrite N.add_comm, N.Div0.mod_add. apply N.mod_small. assumption. }
  destruct ds as [|d0 ds'].
  - assert (Hd0 : d <> 0) by (intros ->; apply Hh; reflexivity).
    change (ofDigits base []) with 0. rewrite N.mul_0_l, N.add_0_l.
    rewrite toDigits_step by assumption.
    rewrite N.div_small, N.mod_small by assumption. reflexivity.
  - assert (Hne : ofDigits base (d0 :: ds') <> 0).
    { intros H0. specialize (IH Hb Hh). rewrite H0 in IH. discriminate. }
    rewrite toDigits_step by nia.
    rewrite Hq, Hr, IH by assumption. reflexivity.
Qed.

End Numerals.

(** ** The base58 codec *)

Section Base58.

Local Open Scope N_scope.

Lemma leading_split {A} `{EqDecision A} (z : A) (l : list A) :
  l = replicate (leading z l) z ++ drop (leading z l) l
  /\ head (drop (leading z l) l) <> Some z.
Proof.
  induction l as [|a l [IH1 IH2]]; simpl.
  - split; [reflexivity|discriminate].
  - destruct (decide (a = z)) as [->|Hne]; simpl.
    + split; [f_equal; exact IH1|exact IH2].
    + split; [reflexivity|congruence].
Qed.

Lemma leading_replicate {A} `{EqDecision A} (z : A) (k : nat) (l : list A) :
  head l <> Some z -> leading z (replicate k z ++ l) = k.
Proof.
  intros Hl. induction k as [|k IH]; simpl.
  - destruct l as [|a l]; [reflexivity|]. simpl.
    destruct (decide (a = z)) as [->|]; [|reflexivity]. contradiction Hl. reflexivity.
  - destruct (decide (z = z)); [|congruence]. f_equal. exact IH.
Qed.

(** A property of the 58 digits, checked digit by digit. *)
Lemma each_digit (P : N -> bool) :
  forallb P (List.map N.of_nat (seq 0 58)) = true ->
  forall d, d < 58 -> P d = true.
Proof.
  intros H d Hd. rewrite forallb_forall in H. apply H.
  apply in_map_iff. exists (N.to_nat d). split; [lia|].
  apply in_seq. lia.
Qed.

Lemma indexOf_charOf (d : N) : d < 58 -> indexOf (charOf d) = Some d.
Proof.
  intros Hd.
  pose proof (each_digit
    (fun d => match indexOf (charOf d) with Some e => e =? d | None => false end)) as H.
  specialize (H ltac:(vm_compute; reflexivity) d Hd). simpl in H.
  destruct (indexOf (charOf d)) as [e|]; [|discriminate].
  apply N.eqb_eq in H. congruence.
Qed.

Lemma charOf_alphabet (d : N) : charOf d ∈ alphabet.
Proof.
  unfold charOf. apply list_elem_of_In.
  destruct (Nat.lt_ge_cases (N.to_nat d) (length alphabet)) as [Hlt|Hge].
  - apply nth_In, Hlt.
  - rewrite nth_overflow by exact Hge. left. reflexivity.
Qed.

Lemma bufferToB58_isBase58 (b : Buffer) : isBase58 (bufferToB58 b).
Proof.
  unfold isBase58, bufferToB58.
  rewrite list_ascii_of_string_of_list_ascii.
  apply Forall_app. split.
  - apply Forall_replicate. exact (charOf_alphabet 0).
  - apply Forall_fmap, Forall_forall. intros d _. apply charOf_alphabet.
Qed.

Lemma to_N_lt_256 (x : byte) : Byte.to_N x < 256.
Proof. pose proof (Byte.to_N_bounded x). lia. Qed.

Lemma byteOf_to_N (x : byte) : byteOf (Byte.to_N x) = x.
Proof. unfold byteOf. rewrite Byte.of_to_N. reflexivity. Qed.

Lemma to_N_zero (x : byte) : Byte.to_N x = 0 -> x = "000"%byte.
Proof.
  intros H. rewrite <- (byteOf_to_N x), H. reflexivity.
Qed.

Lemma bytes_of_digits (b : Buffer) : byteOf <$> (Byte.to_N <$> b) = b.
Proof.
  induction b as [|x b IH]; [reflexivity|].
  simpl. rewrite byteOf_to_N. f_equal. exact IH.
Qed.

Lemma decode_digits (k : nat) (ds : list N) :
  Forall (fun d => d < 58) ds ->
  mapM indexOf (replicate k "1"%char ++ (charOf <$> ds)) = Some (replicate k 0 ++ ds).
Proof.
  intros Hds. apply mapM_Some. apply Forall2_app.
  - apply Forall2_replicate. reflexivity.
  - apply Forall2_fmap_l, Forall_Forall2_diag.
    eapply Forall_impl; [exact Hds|]. intros d Hd. apply indexOf_charOf, Hd.
Qed.

(** Base58 decoding inverts base58 encoding, leading zero bytes included. *)
Lemma b58ToBuffer_bufferToB58 (b : Buffer) : b58ToBuffer (bufferToB58 b) = Some b.
Proof.
  unfold b58ToBuffer, bufferToB58.
  rewrite list_ascii_of_string_of_list_ascii.
  destruct (leading_split "000"%byte b) as [Hb Hrest].
  set (k := leading "000"%byte b) in *. set (rest := drop k b) in *.
  assert (Hn : ofDigits 256 (Byte.to_N <$> b) = ofDigits 256 (Byte.to_N <$> rest)).
  { rewrite Hb at 1. rewrite fmap_app, fmap_replicate. apply ofDigits_zeros. }
  rewrite Hn. set (n := ofDigits 256 (Byte.to_N <$> rest)).
  rewrite decode_digits by (apply toDigits_bound; lia). simpl.
  rewrite leading_replicate by (apply toDigits_head; lia).
  rewrite ofDigits_zeros, ofDigits_toDigits by lia.
  unfold n. rewrite toDigits_ofDigits.
  - rewrite bytes_of_digits. congruence.
  - lia.
  - apply Forall_fmap, Forall_forall. intros x _. apply to_N_lt_256.
  - destruct rest as [|x rest']; [discriminate|]. simpl. intros [= Hx].
    apply to_N_zero in Hx. subst x. apply Hrest. reflexivity.
Qed.

Context `{Checksum}.
Hypothesis checksum_length : forall b, length (checksum b) = 4%nat.

Lemma cb58_isBase58 (b : Buffer) : isBase58 (cb58EncodeWith b).
Proof. apply bufferToB58_isBase58. Qed.

(** Checksummed decoding inverts checksummed encoding. *)
Lemma cb58_roundtrip (b : Buffer) : cb58DecodeWith (cb58EncodeWith b) = Some b.
Proof.
  unfold cb58DecodeWith, cb58EncodeWith.
  rewrite b58ToBuffer_bufferToB58. simpl.
  rewrite length_app, checksum_length.
  destruct (decide (length b + 4 < 4)%nat); [lia|].
  replace (length b + 4 - 4)%nat with (length b) by lia.
  rewrite take_app_length, drop_app_length.
  destruct (decide (checksum b = checksum b)); [reflexivity|congruence].
Qed.

End Base58.

(** ** Private keys and node ids *)

Section Identifiers.

Context `{BinTools}.

Lemma decodeLast_unprefixed (pre enc : string) :
  "-"%char ∉ list_ascii_of_string enc ->
  decodeLast (split "-" (pre +:+ String "-" enc)) =
  match cb58Decode enc with
  | Some b => Return b
  | None => Throw DecodeError
  end.
Proof. intros Henc. unfold decodeLast. rewrite last_split by exact Henc. reflexivity. Qed.

Lemma decodeLast_not_format (segs : list string) (mk : string -> Error) :
  (mk = PrivateKeyError \/ mk = NodeIdError) ->
  forall message, decodeLast segs <> Throw (mk message).
Proof.
  intros Hmk message. unfold decodeLast.
  destruct (last segs) as [seg|]; [destruct (cb58Decode seg)|];
    destruct Hmk as [-> | ->]; discriminate.
Qed.

(** C1: for every buffer [pk], [privateKeyStringToBuffer] applied to
    [bufferToPrivateKeyString pk] returns [pk], for a codec whose decoder
    inverts its encoder and whose encoder writes base58 characters. *)
Theorem privateKey_roundtrip :
  (forall b, cb58Decode (cb58Encode b) = Some b) ->
  (forall b, isBase58 (cb58Encode b)) ->
  forall pk, privateKeyStringToBuffer (bufferToPrivateKeyString pk) = Return pk.
Proof.
  intros Hinv Hb58 pk.
  unfold privateKeyStringToBuffer, bufferToPrivateKeyString.
  rewrite startsWith_app. simpl negb. cbv iota.
  change ("PrivateKey-" +:+ cb58Encode pk)
    with ("PrivateKey" +:+ String "-" (cb58Encode pk)).
  rewrite decodeLast_unprefixed by (apply isBase58_no_dash, Hb58).
  rewrite Hinv. reflexivity.
Qed.

(** X2: for every buffer [pk], [NodeIDStringToBuffer] applied to
    [bufferToNodeIDString pk] returns [pk], for a codec whose decoder
    inverts its encoder and whose encoder writes base58 characters. *)
Lemma nodeID_roundtrip :
  (forall b, cb58Decode (cb58Encode b) = Some b) ->
  (forall b, isBase58 (cb58Encode b)) ->
  forall pk, NodeIDStringToBuffer (bufferToNodeIDString pk) = Return pk.
Proof.
  intros Hinv Hb58 pk.
  unfold NodeIDStringToBuffer, bufferToNodeIDString.
  rewrite startsWith_app. simpl negb. cbv iota.
  change ("NodeID-" +:+ cb58Encode pk) with ("NodeID" +:+ String "-" (cb58Encode pk)).
  rewrite decodeLast_unprefixed by (apply isBase58_no_dash, Hb58).
  rewrite Hinv. reflexivity.
Qed.

Lemma privateKey_format_error (pk : string) :
  Spec.formatError PrivateKeyError "PrivateKey-" (privateKeyStringToBuffer pk)
  <-> ~ Spec.hasPrefix "PrivateKey-" pk.
Proof.
  unfold privateKeyStringToBuffer, Spec.formatError.
  rewrite <- startsWith_hasPrefix.
  destruct (startsWith pk "PrivateKey-"); simpl; split.
  - intros [message [Hthrow _]] _.
    exact (decodeLast_not_format _ _ (or_introl eq_refl) _ Hthrow).
  - intros Hn. contradiction Hn. reflexivity.
  - intros _. discriminate.
  - intros _. eexists. split; [reflexivity|]. vm_compute. reflexivity.
Qed.

Lemma nodeID_format_error (pk : string) :
  Spec.formatError NodeIdError "NodeID-" (NodeIDStringToBuffer pk)
  <-> ~ Spec.hasPrefix "NodeID-" pk.
Proof.
  unfold NodeIDStringToBuffer, Spec.formatError.
  rewrite <- startsWith_hasPrefix.
  destruct (startsWith pk "NodeID-"); simpl; split.
  - intros [message [Hthrow _]] _.
    exact (decodeLast_not_format _ _ (or_intror eq_refl) _ Hthrow).
  - intros Hn. contradiction Hn. reflexivity.
  - intros _. discriminate.
  - intros _. eexists. split; [reflexivity|]. vm_compute. reflexivity.
Qed.

(** C4: [privateKeyStringToBuffer] throws a format error whose message
    names "PrivateKey-" exactly when its input does not start with
    "PrivateKey-", [NodeIDStringToBuffer] one that names "NodeID-" exactly
    when its input does not start with "NodeID-"; on such an input neither
    returns a buffer. *)
Theorem prefix_errors (pk : string) :
  (Spec.formatError PrivateKeyError "PrivateKey-" (privateKeyStringToBuffer pk)
     <-> ~ Spec.hasPrefix "PrivateKey-" pk)
  /\ (Spec.formatError NodeIdError "NodeID-" (NodeIDStringToBuffer pk)
     <-> ~ Spec.hasPrefix "NodeID-" pk)
  /\ (~ Spec.hasPrefix "PrivateKey-" pk ->
      forall b, privateKeyStringToBuffer pk <> Return b)
  /\ (~ Spec.hasPrefix "NodeID-" pk ->
      forall b, NodeIDStringToBuffer pk <> Return b).
Proof.
  split; [apply privateKey_format_error|].
  split; [apply nodeID_format_error|].
  split; intros Hn b Hret.
  - apply privateKey_format_error in Hn as [message [Hthrow _]]. congruence.
  - apply nodeID_format_error in Hn as [message [Hthrow _]]. congruence.
Qed.

End Identifiers.

(** The round trip at the base58 codec with the byte-sum checksum. *)
Lemma privateKey_roundtrip_witness :
  (forall b, @cb58Decode (@cb58 sum32Checksum) (@cb58Encode (@cb58 sum32Checksum) b) = Some b)
  /\ (forall b, isBase58 (@cb58Encode (@cb58 sum32Checksum) b))
  /\ @privateKeyStringToBuffer (@cb58 sum32Checksum)
       (@bufferToPrivateKeyString (@cb58 sum32Checksum) ["001"; "002"; "003"]%byte)
     = Return ["001"; "002"; "003"]%byte.
Proof.
  assert (Hlen : forall b, length (@checksum sum32Checksum b) = 4%nat) by reflexivity.
  split; [exact (@cb58_roundtrip sum32Checksum Hlen)|].
  split; [exact (@cb58_isBase58 sum32Checksum)|].
  apply (@privateKey_roundtrip (@cb58 sum32Checksum)).
  - exact (@cb58_roundtrip sum32Checksum Hlen).
  - exact (@cb58_isBase58 sum32Checksum).
Defined.

(** ** Human-readable prefixes *)

Section HRP.

Lemma pretty_N_go_not_u (x : N) (s : string) :
  (forall t, s <> String "u" t) -> forall t, pretty_N_go x s <> String "u" t.
Proof.
  revert s. induction (N.lt_wf_0 x) as [x _ IH]; intros s Hs.
  destruct (N.eq_dec x 0%N) as [->|Hx].
  - rewrite pretty_N_go_0. exact Hs.
  - rewrite pretty_N_go_step by lia.
    apply IH; [apply N.div_lt; lia|].
    intros t. unfold pretty_N_char. repeat case_match; discriminate.
Qed.

(** No integer is rendered as "undefined". *)
Lemma pretty_not_undefined (z : Z) : pretty z <> "undefined".
Proof.
  destruct z as [|p|p]; [discriminate| |discriminate].
  unfold pretty, pretty_Z, pretty, pretty_positive, pretty, pretty_N.
  case_decide; [discriminate|].
  apply pretty_N_go_not_u. discriminate.
Qed.

Context `{Constants}.

Lemma NetworkIDToHRP_number (n : Z) :
  NetworkIDToHRP !! numOf (Some n) = NetworkIDToHRP_entries !! n.
Proof. unfold NetworkIDToHRP. simpl. apply (lookup_kmap _). Qed.

Lemma NetworkIDToHRP_undefined : NetworkIDToHRP !! numOf None = None.
Proof.
  unfold NetworkIDToHRP. apply (lookup_kmap_None _).
  intros n Hn. symmetry in Hn. contradiction (pretty_not_undefined n Hn).
Qed.

(** C3: [getPreferredHRP] returns the configured HRP when its argument is
    a key of the network table, the HRP of the default network id when the
    argument is [undefined], and the fallback HRP when the argument is a
    number that is not a key of the table; it is a total function, so no
    argument makes it throw. *)
Theorem getPreferredHRP_cases :
  (forall n hrp, NetworkIDToHRP_entries !! n = Some hrp ->
     getPreferredHRP (Some n) = Some hrp)
  /\ getPreferredHRP None = NetworkIDToHRP_entries !! DefaultNetworkID
  /\ (forall n, NetworkIDToHRP_entries !! n = None ->
     getPreferredHRP (Some n) = Some FallbackHRP).
Proof.
  unfold getPreferredHRP, inNetworkIDToHRP. repeat split.
  - intros n hrp Hn. rewrite NetworkIDToHRP_number, Hn.
    rewrite bool_decide_eq_true_2 by eauto. reflexivity.
  - rewrite NetworkIDToHRP_undefined.
    rewrite bool_decide_eq_false_2 by (intros [? ?]; discriminate).
    rewrite bool_decide_eq_true_2 by reflexivity.
    apply NetworkIDToHRP_number.
  - intros n Hn. rewrite NetworkIDToHRP_number, Hn.
    rewrite bool_decide_eq_false_2 by (intros [? ?]; discriminate).
    rewrite bool_decide_eq_false_2 by discriminate. reflexivity.
Qed.

End HRP.

(** ** Fee accounting *)

Section Fees.

Lemma fold_costs (ins : list TransferableInput) (cost : Z) :
  fold_left (fun cost input => let inCost := getCost input in cost + inCost) ins cost
  = cost + Spec.inputCosts ins.
Proof.
  revert cost. induction ins as [|input ins IH]; intros cost; simpl.
  - lia.
  - rewrite IH. lia.
Qed.

Context `{Constants}.

(** C2, as amended: [costImportTx tx] is the byte length of the serialized
    transaction times the byte-gas rate the fee table holds for network 1,
    whatever the network of the transaction, plus the sum of the costs the
    import inputs report. *)
Theorem costImportTx_mainnet_rate (tx : UnsignedTx) (rate : Z) :
  Spec.byteGasRate 1 = Some rate ->
  costImportTx tx =
  Return (byteLength (toBuffer tx) * rate
          + Spec.inputCosts (getImportInputs (getTransaction tx))).
Proof.
  unfold Spec.byteGasRate, costImportTx, calcBytesCost. intros Hrate.
  destruct (Defaults_network !! 1) as [net|]; [|discriminate].
  injection Hrate as <-. rewrite fold_costs. reflexivity.
Qed.

End Fees.

(** The cost of the sample import under the sample configuration. *)
Lemma costImportTx_mainnet_rate_witness :
  @Spec.byteGasRate Samples.constants 1 = Some 1
  /\ @costImportTx Samples.constants Samples.fujiImport = Return 3003.
Proof.
  split; [vm_compute; reflexivity|].
  exact (@costImportTx_mainnet_rate Samples.constants Samples.fujiImport 1
           ltac:(vm_compute; reflexivity)).
Defined.

(** Under a table that prices network 5 at 2 per byte, an import on
    network 5 is still charged the rate of network 1. *)
Lemma costImportTx_not_own_rate :
  @Spec.byteGasRate Samples.skewed (getNetworkID (getTransaction Samples.fujiImport)) = Some 2
  /\ @costImportTx Samples.skewed Samples.fujiImport = Return 3003
  /\ @costImportTx Samples.skewed Samples.fujiImport <>
     Return (byteLength (toBuffer Samples.fujiImport) * 2
             + Spec.inputCosts (getImportInputs (getTransaction Samples.fujiImport))).
Proof.
  split; [vm_compute; reflexivity|].
  split; [vm_compute; reflexivity|].
  vm_compute. discriminate.
Qed.

(** ** The connection descriptor *)

Section Address.

Context {API : Type}.

Lemma url_concat (proto ip' : string) (port' : Z) :
  (((proto +:+ "://") +:+ ip') +:+ ":") +:+ pretty port' = Spec.baseURL proto ip' port'.
Proof. unfold Spec.baseURL. simpl. rewrite !append_assoc. reflexivity. Qed.

Lemma consistent_setAddress (this : AVACore API) (ip' : string) (port' : Z)
    (protocol' : option string) :
  Spec.consistent (setAddress this ip' port' protocol').
Proof.
  exists ip', port', (default "http" protocol'). repeat split.
  unfold getURL. simpl. rewrite url_concat. reflexivity.
Qed.

Lemma consistent_step (this : AVACore API) (c : Call API) :
  Spec.consistent this -> Spec.consistent (step this c).
Proof.
  destruct c as [ip' port' protocol'|apiName F bp]; simpl; intros Hthis.
  - apply consistent_setAddress.
  - destruct bp; exact Hthis.
Qed.

(** The getters agree in every state a run of calls goes through. *)
Lemma consistent_run (cs : list (Call API)) (this : AVACore API) :
  Spec.consistent this -> Spec.consistent (run this cs).
Proof.
  revert this. induction cs as [|c cs IH]; intros this Hthis.
  - exact Hthis.
  - change (run this (c :: cs)) with (run (step this c) cs).
    apply IH, consistent_step, Hthis.
Qed.

(** C5: after [setAddress ip port proto] the getters return [ip], [port]
    and [proto], and [getURL] returns proto://ip:port; the four fields
    change in the one step, the registry does not, and the getters agree
    after any later calls; an omitted protocol is "http"; the constructor
    leaves the state [setAddress] leaves. *)
Theorem setAddress_consistent (this : AVACore API) (ip' : string) (port' : Z)
    (protocol' : option string) :
  let this' := setAddress this ip' port' protocol' in
  let proto := default "http" protocol' in
  getIP this' = Some ip'
  /\ getPort this' = Some port'
  /\ getProtocol this' = Some proto
  /\ getURL this' = Some (Spec.baseURL proto ip' port')
  /\ apis this' = apis this
  /\ (forall cs, Spec.consistent (run this' cs))
  /\ getProtocol (setAddress this ip' port' None) = Some "http"
  /\ @constructor API ip' port' protocol' = setAddress blank ip' port' protocol'.
Proof.
  cbv zeta. split; [reflexivity|]. split; [reflexivity|]. split; [reflexivity|].
  split; [unfold getURL; simpl; rewrite url_concat; reflexivity|].
  split; [reflexivity|].
  split; [intros cs; apply consistent_run, consistent_setAddress|].
  split; reflexivity.
Qed.

End Address.

(** ** The module registry *)

Section Registry.

Context {API : Type} `{Members API}.

Lemma addAPI_stored (this : AVACore API) (label : string) (F : Factory API)
    (bp : option string) :
  apis (fst (addAPI this label F bp)) = dictSet label (F this bp) (apis this).
Proof. destruct bp; reflexivity. Qed.

Lemma addAPI_trace (this : AVACore API) (label : string) (F : Factory API)
    (bp : option string) :
  snd (addAPI this label F bp) = [ {| new_ava := this; new_baseurl := bp |} ].
Proof. destruct bp; reflexivity. Qed.

(** A read after a write of the same name gives what was written. *)
Lemma dictGet_set_eq (name : string) (inst : API) (d : Dict API) :
  dictGet (dictSet name inst d) name = Some (Instance inst).
Proof.
  unfold dictGet, dictSet. case_bool_decide; simpl; [reflexivity|].
  rewrite lookup_insert_eq. reflexivity.
Qed.

(** A write of an ordinary name leaves the reads of the other names. *)
Lemma dictGet_set_ne (name other : string) (inst : API) (d : Dict API) :
  other <> name -> name <> "__proto__" ->
  dictGet (dictSet name inst d) other = dictGet d other.
Proof.
  intros Hne Hname. unfold dictGet, dictSet.
  rewrite (bool_decide_eq_false_2 (name = "__proto__")) by exact Hname. simpl.
  case_bool_decide; [reflexivity|].
  rewrite lookup_insert_ne by congruence. reflexivity.
Qed.

(** A write of [__proto__] leaves the reads of own properties. *)
Lemma dictGet_set_proto (other : string) (inst : API) (d : Dict API) :
  other <> "__proto__" -> is_Some (own d !! other) ->
  dictGet (dictSet "__proto__" inst d) other = dictGet d other.
Proof.
  intros Hne [i Hi]. unfold dictGet, dictSet. simpl.
  rewrite (bool_decide_eq_false_2 (other = "__proto__")) by exact Hne.
  rewrite Hi. reflexivity.
Qed.

Lemma own_dictSet (name other : string) (inst : API) (d : Dict API) :
  other <> name -> own (dictSet name inst d) !! other = own d !! other.
Proof.
  intros Hne. unfold dictSet. case_bool_decide; simpl; [reflexivity|].
  apply lookup_insert_ne. congruence.
Qed.

Lemma prototype_dictSet (name : string) (inst : API) (d : Dict API) :
  name <> "__proto__" -> prototype (dictSet name inst d) = prototype d.
Proof.
  intros Hne. unfold dictSet. rewrite bool_decide_eq_false_2 by exact Hne. reflexivity.
Qed.

Lemma step_own (this : AVACore API) (c : Call API) (label : string) :
  ~ registers label c -> own (apis (step this c)) !! label = own (apis this) !! label.
Proof.
  destruct c as [ip' port' protocol'|apiName F bp]; simpl; intros Hc.
  - reflexivity.
  - rewrite addAPI_stored. apply own_dictSet. congruence.
Qed.

Lemma step_prototype (this : AVACore API) (c : Call API) :
  ~ registers "__proto__" c -> prototype (apis (step this c)) = prototype (apis this).
Proof.
  destruct c as [ip' port' protocol'|apiName F bp]; simpl; intros Hc.
  - reflexivity.
  - rewrite addAPI_stored. apply prototype_dictSet. exact Hc.
Qed.

(** Calls that do not register [label] leave its own entry alone. *)
Lemma run_own (cs : list (Call API)) (this : AVACore API) (label : string) :
  Forall (fun c => ~ registers label c) cs ->
  own (apis (run this cs)) !! label = own (apis this) !! label.
Proof.
  intros Hcs. revert this.
  induction Hcs as [|c cs Hc _ IH]; intros this.
  - reflexivity.
  - change (run this (c :: cs)) with (run (step this c) cs).
    rewrite IH. apply step_own, Hc.
Qed.

(** Calls that do not register [__proto__] leave the prototype alone. *)
Lemma run_prototype (cs : list (Call API)) (this : AVACore API) :
  Forall (fun c => ~ registers "__proto__" c) cs ->
  prototype (apis (run this cs)) = prototype (apis this).
Proof.
  intros Hcs. revert this.
  induction Hcs as [|c cs Hc _ IH]; intros this.
  - reflexivity.
  - change (run this (c :: cs)) with (run (step this c) cs).
    rewrite IH. apply step_prototype, Hc.
Qed.

Lemma holds_dictSet (label : string) (inst : API) (d : Dict API) :
  Spec.holds (dictSet label inst d) label inst.
Proof.
  unfold Spec.holds, dictSet. case_bool_decide; simpl; [reflexivity|].
  apply lookup_insert_eq.
Qed.

Lemma dictGet_holds (label : string) (inst : API) (d : Dict API) :
  Spec.holds d label inst -> dictGet d label = Some (Instance inst).
Proof.
  unfold Spec.holds, dictGet. case_bool_decide; intros ->; reflexivity.
Qed.

(** Calls that do not register [label] leave the instance stored under
    it. *)
Lemma holds_run (cs : list (Call API)) (this : AVACore API) (label : string) (inst : API) :
  Forall (fun c => ~ registers label c) cs ->
  Spec.holds (apis this) label inst -> Spec.holds (apis (run this cs)) label inst.
Proof.
  unfold Spec.holds. intros Hcs. case_bool_decide as Hl.
  - subst label. rewrite run_prototype by exact Hcs. tauto.
  - rewrite run_own by exact Hcs. tauto.
Qed.

(** A read of a name that is no own property is a read of the prototype
    chain. *)
Lemma dictGet_not_own (d : Dict API) (name : string) :
  name <> "__proto__" -> own d !! name = None ->
  (~ Spec.inherits d name -> dictGet d name = None)
  /\ (Spec.inherits d name ->
      exists v, dictGet d name = Some v /\ forall inst, v <> Instance inst).
Proof.
  intros Hname Hown. unfold dictGet, Spec.inherits, inObjectPrototype.
  rewrite bool_decide_eq_false_2 by exact Hname. rewrite Hown. split; intros Hi.
  - assert (Hnin : name ∉ objectPrototypeMembers) by (intros Hin; apply Hi; auto).
    rewrite (bool_decide_eq_false_2 _ Hnin).
    destruct (prototype d) as [inst|] eqn:Hp; [|reflexivity].
    destruct (hasMember inst name) eqn:Hm; [|reflexivity].
    contradiction Hi. right. right. eauto.
  - destruct (prototype d) as [inst|] eqn:Hp.
    + destruct (hasMember inst name) eqn:Hm.
      { eexists. split; [reflexivity|discriminate]. }
      destruct Hi as [Hp'|[Hin|(i & Hi1 & Hi2)]]; [congruence| |congruence].
      rewrite (bool_decide_eq_true_2 _ Hin). eexists. split; [reflexivity|discriminate].
    + destruct Hi as [Hp'|[Hin|(i & Hi1 & Hi2)]]; [congruence| |congruence].
      rewrite (bool_decide_eq_true_2 _ Hin). eexists. split; [reflexivity|discriminate].
Qed.

(** C7: [addAPI label F basePath] calls [F] once, with the middleware and
    the base path when one is given, and stores the instance under
    [label], where [api label] then reads it; a second registration under
    [label] replaces the first, and none fails. The other labels read as
    before, unless the label is [__proto__], which changes what the
    registry inherits and leaves only the registered labels as they
    were. *)
Theorem addAPI_last_write_wins (this : AVACore API) (label : string)
    (F : Factory API) (bp : option string) :
  let this' := fst (addAPI this label F bp) in
  snd (addAPI this label F bp) = [ {| new_ava := this; new_baseurl := bp |} ]
  /\ api this' label = Some (Instance (F this bp))
  /\ (forall other, other <> label ->
        label <> "__proto__" \/ is_Some (own (apis this) !! other) ->
        api this' other = api this other)
  /\ (forall F2 bp2,
        api (fst (addAPI this' label F2 bp2)) label = Some (Instance (F2 this' bp2))
        /\ dom (own (apis (fst (addAPI this' label F2 bp2)))) = dom (own (apis this'))).
Proof.
  simpl. split; [apply addAPI_trace|].
  split; [unfold api; rewrite addAPI_stored; apply dictGet_set_eq|].
  split.
  - intros other Hne Hcase. unfold api. rewrite addAPI_stored.
    destruct (decide (label = "__proto__")) as [->|Hl].
    + destruct Hcase as [Hl|Hown]; [congruence|].
      apply dictGet_set_proto; assumption.
    + apply dictGet_set_ne; assumption.
  - intros F2 bp2. unfold api. rewrite !addAPI_stored. split.
    + apply dictGet_set_eq.
    + unfold dictSet. case_bool_decide; simpl; [reflexivity|].
      rewrite insert_insert_eq, !dom_insert_L. reflexivity.
Qed.

(** C8, as amended: [api label] returns the instance last stored under
    [label], whatever calls that do not register [label] came after; for a
    label no call registered since construction it returns [undefined]
    when the registry inherits no member under that name, and the
    inherited member, which is no registered instance, when it does. *)
Theorem api_lookup (label : string) (cs : list (Call API)) :
  Forall (fun c => ~ registers label c) cs ->
  (forall this F bp,
     api (run (fst (addAPI this label F bp)) cs) label = Some (Instance (F this bp)))
  /\ (forall ip' port' protocol',
       let this := run (constructor ip' port' protocol') cs in
       (~ Spec.inherits (apis this) label -> api this label = None)
       /\ (Spec.inherits (apis this) label ->
           exists v, api this label = Some v /\ forall inst, v <> Instance inst)).
Proof.
  intros Hcs. split.
  - intros this F bp. unfold api.
    apply dictGet_holds, holds_run; [exact Hcs|].
    rewrite addAPI_stored. apply holds_dictSet.
  - intros ip' port' protocol'. cbv zeta. unfold api.
    destruct (decide (label = "__proto__")) as [->|Hl].
    + split.
      * intros Hi. contradiction Hi. left. reflexivity.
      * intros _. unfold dictGet. simpl.
        rewrite run_prototype by exact Hcs. simpl.
        eexists. split; [reflexivity|discriminate].
    + apply dictGet_not_own; [exact Hl|].
      rewrite run_own by exact Hcs. reflexivity.
Qed.

End Registry.

(** A registration under "X" read back after two later calls, and a label
    never registered. *)
Lemma api_lookup_witness :
  let later : list (Call nat) :=
    [CallSetAddress "localhost" 9650 None; CallAddAPI "P" (fun _ _ => 2%nat) None] in
  Forall (fun c => ~ registers "X" c) later
  /\ @api nat Samples.plain
       (run (fst (addAPI (constructor "127.0.0.1" 9650 (Some "https")) "X"
                         (fun _ _ => 1%nat) (Some "/ext/X"))) later) "X"
     = Some (Instance 1%nat)
  /\ @api nat Samples.plain (run (constructor "127.0.0.1" 9650 (Some "https")) later) "X"
     = None.
Proof.
  simpl.
  assert (Hlater : Forall (fun c : Call nat => ~ registers "X" c)
            [CallSetAddress "localhost" 9650 None; CallAddAPI "P" (fun _ _ => 2%nat) None]).
  { repeat constructor; simpl; [tauto|discriminate]. }
  split; [exact Hlater|].
  destruct (@api_lookup nat Samples.plain "X" _ Hlater) as [Hstored Hnew].
  split.
  - exact (Hstored (constructor "127.0.0.1" 9650 (Some "https")) (fun _ _ => 1%nat)
             (Some "/ext/X")).
  - apply (Hnew "127.0.0.1" 9650 (Some "https")).
    intros [Hp|[Hb|(inst & _ & Hm)]]; [discriminate| |discriminate].
    revert Hb. refine (bool_decide_unpack _ _). vm_compute. exact I.
Defined.

(** On a new middleware, with nothing registered, the label "toString"
    reads the member of that name the registry inherits. *)
Lemma api_inherited_member :
  Forall (fun c => ~ registers "toString" c) ([] : list (Call nat))
  /\ @api nat Samples.plain (run (constructor "127.0.0.1" 9650 None) []) "toString"
     = Some (Builtin "toString")
  /\ @api nat Samples.plain (run (constructor "127.0.0.1" 9650 None) []) "toString" <> None.
Proof.
  split; [constructor|]. split; [vm_compute; reflexivity|vm_compute; discriminate].
Qed.

(** ** Requests *)

Section Requests.

Context {API : Type} `{Axios}.

Lemma orDefault_idem (d v : Val) : orDefault d (orDefault d v) = orDefault d v.
Proof. destruct v; try reflexivity. destruct d; reflexivity. Qed.

Lemma requestConfig_headers (this : AVACore API) (m u : string) (g p h : Val)
    (c : option AxiosRequestConfig) :
  requestConfig this m u g p (orDefault emptyObject h) c = requestConfig this m u g p h c.
Proof. unfold requestConfig. rewrite orDefault_idem. reflexivity. Qed.

Lemma request_headers (this : AVACore API) (m u : string) (g p h : Val)
    (c : option AxiosRequestConfig) :
  _request this m u g p (orDefault emptyObject h) c = _request this m u g p h c.
Proof. unfold _request. rewrite requestConfig_headers. reflexivity. Qed.

Lemma request_canonical (this : AVACore API) (m u : string) (g p h : Val)
    (c : option AxiosRequestConfig) :
  Spec.canonical (requestConfig this m u g p h c) (_request this m u g p h c).
Proof.
  unfold Spec.canonical, _request. simpl. split; [reflexivity|].
  split; intros r Hr; rewrite Hr; reflexivity.
Qed.

(** C6: [_request], and so each wrapper, issues one transport request;
    when the transport completes it, the promise is fulfilled with a
    [RequestResponseData] holding the transport's body, headers, request
    handle, status and status text; when the transport fails, the promise
    is rejected with the transport's own reason. *)
Theorem request_outcome (this : AVACore API) (u : string) (g p h : Val)
    (c : option AxiosRequestConfig) :
  (forall m, Spec.canonical (requestConfig this m u g p h c) (_request this m u g p h c))
  /\ Spec.canonical (requestConfig this "GET" u g emptyObject h c) (get this u g h c)
  /\ Spec.canonical (requestConfig this "DELETE" u g emptyObject h c) (delete this u g h c)
  /\ Spec.canonical (requestConfig this "POST" u g p h c) (post this u g p h c)
  /\ Spec.canonical (requestConfig this "PUT" u g p h c) (put this u g p h c)
  /\ Spec.canonical (requestConfig this "PATCH" u g p h c) (patch this u g p h c).
Proof.
  split; [intros m; apply request_canonical|].
  unfold get, delete, post, put, patch. rewrite !request_headers.
  repeat split; apply request_canonical.
Qed.

(** C9: [get] and [delete] are [_request] at "GET" and "DELETE" with the
    empty object as body, and that is the body they send; [post], [put]
    and [patch] are [_request] at "POST", "PUT" and "PATCH" with the body
    they are given. *)
Theorem wrappers_specialize (this : AVACore API) (u : string) (g p h : Val)
    (c : option AxiosRequestConfig) :
  get this u g h c = _request this "GET" u g emptyObject h c
  /\ delete this u g h c = _request this "DELETE" u g emptyObject h c
  /\ post this u g p h c = _request this "POST" u g p h c
  /\ put this u g p h c = _request this "PUT" u g p h c
  /\ patch this u g p h c = _request this "PATCH" u g p h c
  /\ (forall config, config ∈ snd (get this u g h c) ++ snd (delete this u g h c) ->
       config !! "data" = Some emptyObject).
Proof.
  unfold get, delete, post, put, patch. rewrite !request_headers.
  repeat split.
  intros config Hin. unfold _request, requestConfig in Hin. simpl in Hin.
  apply elem_of_cons in Hin as [->|Hin].
  - rewrite lookup_insert_ne by discriminate. apply lookup_insert_eq.
  - apply list_elem_of_singleton in Hin as ->.
    rewrite lookup_insert_ne by discriminate. apply lookup_insert_eq.
Qed.

End Requests.


(** The stub transport answers a GET of /ext/X/info, sent by a middleware
    that has a module registered under "X", with status 200 and body "ok";
    the down transport rejects it. *)
Lemma request_outcome_witness :
  let ava : AVACore nat :=
    fst (addAPI (constructor "127.0.0.1" 9650 None) "X" (fun _ _ => 1%nat) None) in
  fst (@get nat Samples.stub ava "/ext/X/info" VUndefined VUndefined None)
  = Fulfilled {| data := VString "ok"; headers := emptyObject; request := VUndefined;
                 status := 200; statusText := "OK" |}
  /\ fst (@get nat Samples.down ava "/ext/X/info" VUndefined VUndefined None)
     = Rejected (VString "Network Error").
Proof.
  simpl. split.
  - destruct (@request_outcome nat Samples.stub
                (fst (addAPI (constructor "127.0.0.1" 9650 None) "X" (fun _ _ => 1%nat) None))
                "/ext/X/info" VUndefined VUndefined VUndefined None)
      as (_ & (_ & Hok & _) & _).
    exact (Hok _ eq_refl).
  - destruct (@request_outcome nat Samples.down
                (fst (addAPI (constructor "127.0.0.1" 9650 None) "X" (fun _ _ => 1%nat) None))
                "/ext/X/info" VUndefined VUndefined VUndefined None)
      as (_ & (_ & _ & Hfail) & _).
    exact (Hfail _ eq_refl).
Defined.

(** ** Transport overrides *)

Section Overrides.

Context {API : Type} `{Axios}.

Lemma not_callField (k : string) :
  k ∉ Spec.callFields ->
  k <> "url" /\ k <> "method" /\ k <> "headers" /\ k <> "data" /\ k <> "params".
Proof.
  unfold Spec.callFields. rewrite !not_elem_of_cons. tauto.
Qed.

Lemma requestConfig_set (this : AVACore API) (m u : string) (g p h : Val)
    (c : option AxiosRequestConfig) :
  let config := requestConfig this m u g p h c in
  config !! "url" = Some (VString u)
  /\ config !! "method" = Some (VString m)
  /\ config !! "headers" = Some (orDefault emptyObject h)
  /\ config !! "data" = Some p
  /\ config !! "params" = Some g.
Proof.
  unfold requestConfig. simpl.
  repeat split; repeat (rewrite lookup_insert_ne by discriminate); apply lookup_insert_eq.
Qed.

Lemma requestConfig_kept (this : AVACore API) (m u : string) (g p h : Val)
    (override : AxiosRequestConfig) (k : string) :
  k ∉ Spec.callFields ->
  requestConfig this m u g p h (Some override) !! k = override !! k.
Proof.
  intros Hk. apply not_callField in Hk as (? & ? & ? & ? & ?).
  unfold requestConfig. rewrite !lookup_insert_ne by congruence. reflexivity.
Qed.

(** C10: with a transport override, the request [_request] issues still
    has the url, method, headers, body and query params of the call, in
    place of any the override carried; every other field is the
    override's. Only without an override does the base URL come from the
    stored address, with response type 'text'. *)
Theorem override_keeps_call_fields (this : AVACore API) (m u : string) (g p h : Val)
    (override : AxiosRequestConfig) :
  let config := requestConfig this m u g p h (Some override) in
  snd (_request this m u g p h (Some override)) = [config]
  /\ config !! "url" = Some (VString u)
  /\ config !! "method" = Some (VString m)
  /\ config !! "headers" = Some (orDefault emptyObject h)
  /\ config !! "data" = Some p
  /\ config !! "params" = Some g
  /\ (forall k, k ∉ Spec.callFields -> config !! k = override !! k)
  /\ (forall ip' port' protocol',
        let this' := setAddress this ip' port' protocol' in
        let plain := requestConfig this' m u g p h None in
        plain !! "baseURL" = VString <$> getURL this'
        /\ plain !! "responseType" = Some (VString "text")
        /\ forall k, k ∉ Spec.callFields -> k <> "baseURL" -> k <> "responseType" ->
             plain !! k = None).
Proof.
  simpl. split; [reflexivity|].
  destruct (requestConfig_set this m u g p h (Some override)) as (Hu & Hm & Hh & Hd & Hp).
  repeat (split; [assumption|]).
  split; [intros k Hk; apply requestConfig_kept, Hk|].
  intros ip' port' protocol'. unfold requestConfig. cbv zeta.
  split; [|split].
  - rewrite !lookup_insert_ne by discriminate. rewrite lookup_insert_eq. reflexivity.
  - rewrite !lookup_insert_ne by discriminate. apply lookup_insert_eq.
  - intros k Hk Hb Hr. apply not_callField in Hk as (? & ? & ? & ? & ?).
    rewrite !lookup_insert_ne by congruence. apply lookup_singleton_ne. congruence.
Qed.

End Overrides.

(** ** Worked examples *)

Section Examples.

Example base58_hello :
  bufferToB58 (list_byte_of_string "Hello World!") = "2NEpo7TZRRrLZSi2U".
Proof. vm_compute. reflexivity. Qed.

Example base58_leading_zeros :
  bufferToB58 ["000"; "000"; "001"]%byte = "112"
  /\ b58ToBuffer "112" = Some ["000"; "000"; "001"]%byte
  /\ b58ToBuffer "0OIl" = None.
Proof. vm_compute. repeat split. Qed.

Example privateKey_string :
  @bufferToPrivateKeyString (@cb58 sum32Checksum) (list_byte_of_string "abc")
  = "PrivateKey-4h3c4PMGqB".
Proof. vm_compute. reflexivity. Qed.

Example privateKey_wrong_prefix :
  @privateKeyStringToBuffer (@cb58 sum32Checksum) "NotAPrefix-abc"
  = Throw (PrivateKeyError
      "Error - privateKeyStringToBuffer: private keys must start with 'PrivateKey-'").
Proof. vm_compute. reflexivity. Qed.

Example privateKey_bad_checksum :
  @privateKeyStringToBuffer (@cb58 sum32Checksum) "PrivateKey-4h3c4PMGqC"
  = Throw DecodeError.
Proof. vm_compute. reflexivity. Qed.

Example hrp_of_ids :
  @getPreferredHRP Samples.constants None = Some "avax"
  /\ @getPreferredHRP Samples.constants (Some 5) = Some "fuji"
  /\ @getPreferredHRP Samples.constants (Some 99999) = Some "custom".
Proof. vm_compute. repeat split. Qed.

Example url_of_address :
  getURL (@constructor nat "127.0.0.1" 9650 (Some "https")) = Some "https://127.0.0.1:9650"
  /\ getURL (@constructor nat "localhost" 9650 None) = Some "http://localhost:9650".
Proof. vm_compute. repeat split. Qed.

Example registry_reads :
  let ava : AVACore nat := constructor "127.0.0.1" 9650 None in
  let ava' : AVACore nat := fst (addAPI ava "__proto__" (fun _ _ => 7%nat) None) in
  @api nat Samples.plain ava "X" = None
  /\ @api nat Samples.plain ava "constructor" = Some (Builtin "constructor")
  /\ @api nat Samples.plain ava "__proto__" = Some ObjectPrototype
  /\ @api nat Samples.plain ava' "__proto__" = Some (Instance 7%nat)
  /\ @api nat Samples.plain ava' "valueOf" = Some (Builtin "valueOf").
Proof. vm_compute. repeat split. Qed.

Example split_segments :
  split "-" "a-b--c-" = ["a"; "b"; ""; "c"; ""] /\ split "-" "" = [""].
Proof. vm_compute. repeat split. Qed.

End Examples.

(** * Further properties *)

(** ** Stake weights *)

Section Weights.

Lemma BN_min_spec (a b : Z) : BN_min a b = Z.min a b.
Proof. unfold BN_min. destruct (Z.ltb_spec a b); lia. Qed.

(** X1: the maximum weight is never above the cap nor above five times
    the stake, it is one of the two, and it does not decrease when the
    stake or the cap grows. *)
Theorem MaxWeightFormula_bounds (staked cap : Z) :
  MaxWeightFormula staked cap <= cap
  /\ MaxWeightFormula staked cap <= 5 * staked
  /\ (MaxWeightFormula staked cap = cap \/ MaxWeightFormula staked cap = 5 * staked)
  /\ (forall staked' cap', staked <= staked' -> cap <= cap' ->
        MaxWeightFormula staked cap <= MaxWeightFormula staked' cap').
Proof.
  unfold MaxWeightFormula. rewrite BN_min_spec.
  repeat split; try lia.
  intros staked' cap' Hs Hc. rewrite BN_min_spec. lia.
Qed.

End Weights.

(** ** Identifier strings *)

(** The node id round trip at the base58 codec with the byte-sum
    checksum. *)
Lemma nodeID_roundtrip_witness :
  (forall b, @cb58Decode (@cb58 sum32Checksum) (@cb58Encode (@cb58 sum32Checksum) b) = Some b)
  /\ (forall b, isBase58 (@cb58Encode (@cb58 sum32Checksum) b))
  /\ @NodeIDStringToBuffer (@cb58 sum32Checksum)
       (@bufferToNodeIDString (@cb58 sum32Checksum) ["007"; "000"; "255"]%byte)
     = Return ["007"; "000"; "255"]%byte.
Proof.
  assert (Hlen : forall b, length (@checksum sum32Checksum b) = 4%nat) by reflexivity.
  split; [exact (@cb58_roundtrip sum32Checksum Hlen)|].
  split; [exact (@cb58_isBase58 sum32Checksum)|].
  apply (@nodeID_roundtrip (@cb58 sum32Checksum)).
  - exact (@cb58_roundtrip sum32Checksum Hlen).
  - exact (@cb58_isBase58 sum32Checksum).
Defined.

Section MoreIdentifiers.

Context `{BinTools}.

(** X3: a node id string is never read as a private key and a private key
    string is never read as a node id: each decoder rejects the other
    encoder's output with its own format error, whatever the buffer. *)
Theorem identifiers_do_not_cross (b : Buffer) :
  privateKeyStringToBuffer (bufferToNodeIDString b)
  = Throw (PrivateKeyError
      "Error - privateKeyStringToBuffer: private keys must start with 'PrivateKey-'")
  /\ NodeIDStringToBuffer (bufferToPrivateKeyString b)
  = Throw (NodeIdError "Error - privateNodeIDToBuffer: nodeID must start with 'NodeID-'").
Proof.
  unfold privateKeyStringToBuffer, NodeIDStringToBuffer,
    bufferToNodeIDString, bufferToPrivateKeyString.
  change ("NodeID-" +:+ cb58Encode b) with (String "N" ("odeID-" +:+ cb58Encode b)).
  change ("PrivateKey-" +:+ cb58Encode b) with (String "P" ("rivateKey-" +:+ cb58Encode b)).
  split; reflexivity.
Qed.

Lemma decodeLast_some (pk : string) :
  exists seg, last (split "-" pk) = Some seg
    /\ decodeLast (split "-" pk) =
       match cb58Decode seg with
       | Some b => Return b
       | None => Throw DecodeError
       end.
Proof.
  destruct (last (split "-" pk)) as [seg|] eqn:E.
  - exists seg. split; [reflexivity|]. unfold decodeLast. rewrite E. reflexivity.
  - apply last_None in E. contradiction (split_nonempty _ _ E).
Qed.

Lemma decodeLast_not_TypeError (pk : string) : decodeLast (split "-" pk) <> Throw TypeError.
Proof.
  destruct (decodeLast_some pk) as (seg & _ & ->).
  destruct (cb58Decode seg); discriminate.
Qed.

(** X5: neither decoder ever fails on a missing final segment; on an input
    with the right prefix the outcome is the codec's on the text after the
    last '-': the decoded buffer, or a decode error. *)
Theorem decoders_outcome (pk : string) :
  privateKeyStringToBuffer pk <> Throw TypeError
  /\ NodeIDStringToBuffer pk <> Throw TypeError
  /\ (Spec.hasPrefix "PrivateKey-" pk ->
      exists seg, last (split "-" pk) = Some seg
        /\ privateKeyStringToBuffer pk =
           match cb58Decode seg with Some b => Return b | None => Throw DecodeError end)
  /\ (Spec.hasPrefix "NodeID-" pk ->
      exists seg, last (split "-" pk) = Some seg
        /\ NodeIDStringToBuffer pk =
           match cb58Decode seg with Some b => Return b | None => Throw DecodeError end).
Proof.
  unfold privateKeyStringToBuffer, NodeIDStringToBuffer.
  split; [|split; [|split]].
  - destruct (startsWith pk "PrivateKey-"); simpl;
      [apply decodeLast_not_TypeError|discriminate].
  - destruct (startsWith pk "NodeID-"); simpl;
      [apply decodeLast_not_TypeError|discriminate].
  - intros Hp. apply startsWith_hasPrefix in Hp. rewrite Hp. simpl.
    apply decodeLast_some.
  - intros Hp. apply startsWith_hasPrefix in Hp. rewrite Hp. simpl.
    apply decodeLast_some.
Qed.

(** X4: only the text after the last '-' is decoded: whatever stands
    between the prefix and the last '-' is ignored, so a string with extra
    segments reads as the string without them. *)
Theorem middle_segments_ignored (mid enc : string) :
  "-"%char ∉ list_ascii_of_string enc ->
  privateKeyStringToBuffer ("PrivateKey-" +:+ mid +:+ "-" +:+ enc)
  = privateKeyStringToBuffer ("PrivateKey-" +:+ enc)
  /\ NodeIDStringToBuffer ("NodeID-" +:+ mid +:+ "-" +:+ enc)
  = NodeIDStringToBuffer ("NodeID-" +:+ enc).
Proof.
  intros Henc. unfold privateKeyStringToBuffer, NodeIDStringToBuffer.
  rewrite !startsWith_app. simpl negb. cbv iota. split.
  - change ("PrivateKey-" +:+ enc) with ("PrivateKey" +:+ String "-" enc).
    change (mid +:+ "-" +:+ enc) with (mid +:+ String "-" enc).
    rewrite <- (append_assoc "PrivateKey-" mid).
    rewrite !decodeLast_unprefixed by exact Henc. reflexivity.
  - change ("NodeID-" +:+ enc) with ("NodeID" +:+ String "-" enc).
    change (mid +:+ "-" +:+ enc) with (mid +:+ String "-" enc).
    rewrite <- (append_assoc "NodeID-" mid).
    rewrite !decodeLast_unprefixed by exact Henc. reflexivity.
Qed.

(** X6: with a codec whose decoder inverts its encoder, distinct buffers
    have distinct private key strings and distinct node id strings, and no
    private key string is a node id string. *)
Theorem identifier_strings_injective :
  (forall b, cb58Decode (cb58Encode b) = Some b) ->
  forall a b,
    (bufferToPrivateKeyString a = bufferToPrivateKeyString b -> a = b)
    /\ (bufferToNodeIDString a = bufferToNodeIDString b -> a = b)
    /\ bufferToPrivateKeyString a <> bufferToNodeIDString b.
Proof.
  intros Hinv a b.
  assert (Henc : cb58Encode a = cb58Encode b -> a = b).
  { intros E. pose proof (Hinv a) as Ha. rewrite E, Hinv in Ha. congruence. }
  unfold bufferToPrivateKeyString, bufferToNodeIDString. repeat split.
  - intros E. apply Henc. exact (String.app_inj _ _ _ E).
  - intros E. apply Henc. exact (String.app_inj _ _ _ E).
  - change ("PrivateKey-" +:+ cb58Encode a) with (String "P" ("rivateKey-" +:+ cb58Encode a)).
    change ("NodeID-" +:+ cb58Encode b) with (String "N" ("odeID-" +:+ cb58Encode b)).
    discriminate.
Qed.

End MoreIdentifiers.

(** A private key string with two extra segments, at the base58 codec. *)
Lemma middle_segments_ignored_witness :
  ("-"%char ∉ list_ascii_of_string "4h3c4PMGqB")
  /\ @privateKeyStringToBuffer (@cb58 sum32Checksum) "PrivateKey-any-thing-4h3c4PMGqB"
     = Return (list_byte_of_string "abc")
  /\ @NodeIDStringToBuffer (@cb58 sum32Checksum) "NodeID-any-thing-4h3c4PMGqB"
     = Return (list_byte_of_string "abc").
Proof.
  assert (Hdash : "-"%char ∉ list_ascii_of_string "4h3c4PMGqB").
  { refine (bool_decide_unpack _ _). vm_compute. exact I. }
  split; [exact Hdash|].
  destruct (@middle_segments_ignored (@cb58 sum32Checksum) "any-thing" "4h3c4PMGqB" Hdash)
    as [Hpk Hnode].
  split.
  - etransitivity; [exact Hpk|]. vm_compute. reflexivity.
  - etransitivity; [exact Hnode|]. vm_compute. reflexivity.
Defined.

(** Two buffers and their strings at the base58 codec. *)
Lemma identifier_strings_injective_witness :
  (forall b, @cb58Decode (@cb58 sum32Checksum) (@cb58Encode (@cb58 sum32Checksum) b) = Some b)
  /\ @bufferToPrivateKeyString (@cb58 sum32Checksum) ["001"]%byte
     <> @bufferToNodeIDString (@cb58 sum32Checksum) ["001"]%byte.
Proof.
  assert (Hlen : forall b, length (@checksum sum32Checksum b) = 4%nat) by reflexivity.
  split; [exact (@cb58_roundtrip sum32Checksum Hlen)|].
  exact (proj2 (proj2 (@identifier_strings_injective (@cb58 sum32Checksum)
           (@cb58_roundtrip sum32Checksum Hlen) ["001"]%byte ["001"]%byte))).
Defined.

(** ** Fees *)

Section MoreFees.

Lemma inputCosts_perm (ins1 ins2 : list TransferableInput) :
  ins1 ≡ₚ ins2 -> Spec.inputCosts ins1 = Spec.inputCosts ins2.
Proof.
  induction 1 as [|i l1 l2 _ IH|i j l|l1 l2 l3 _ IH1 _ IH2]; simpl.
  - reflexivity.
  - rewrite IH. reflexivity.
  - lia.
  - congruence.
Qed.

Lemma inputCosts_nonneg (ins : list TransferableInput) :
  Forall (fun input => 0 <= getCost input) ins -> 0 <= Spec.inputCosts ins.
Proof. induction 1 as [|i l Hi _ IH]; simpl; lia. Qed.

Context `{Constants}.

Lemma costImportTx_unfold (tx : UnsignedTx) :
  costImportTx tx =
  match Defaults_network !! 1 with
  | Some net => Return (byteLength (toBuffer tx) * txBytesGas (C net)
                        + Spec.inputCosts (getImportInputs (getTransaction tx)))
  | None => Throw TypeError
  end.
Proof.
  unfold costImportTx, calcBytesCost.
  destruct (Defaults_network !! 1); [|reflexivity].
  rewrite fold_costs. reflexivity.
Qed.

(** X7: the cost depends on the serialized bytes through their number
    only, not on the network id of the transaction, and not on the order of
    the import inputs. *)
Theorem cost_order_irrelevant (tx1 tx2 : UnsignedTx) :
  length (toBuffer tx1) = length (toBuffer tx2) ->
  getImportInputs (getTransaction tx1) ≡ₚ getImportInputs (getTransaction tx2) ->
  costImportTx tx1 = costImportTx tx2.
Proof.
  intros Hlen Hperm. rewrite !costImportTx_unfold.
  unfold byteLength. rewrite Hlen, (inputCosts_perm _ _ Hperm). reflexivity.
Qed.

(** X9: when the byte-gas rate of network 1 and the costs the inputs
    report are not negative, the cost is not negative either, and it is at
    least the cost of the bytes alone. *)
Theorem cost_lower_bound (tx : UnsignedTx) (rate : Z) :
  Spec.byteGasRate 1 = Some rate ->
  0 <= rate ->
  Forall (fun input => 0 <= getCost input) (getImportInputs (getTransaction tx)) ->
  exists bytesCost cost,
    calcBytesCost (byteLength (toBuffer tx)) = Return bytesCost
    /\ costImportTx tx = Return cost
    /\ 0 <= bytesCost <= cost.
Proof.
  unfold Spec.byteGasRate. intros Hrate Hpos Hins.
  rewrite costImportTx_unfold. unfold calcBytesCost.
  destruct (Defaults_network !! 1) as [net|]; [|discriminate].
  injection Hrate as <-.
  eexists _, _. split; [reflexivity|]. split; [reflexivity|].
  pose proof (inputCosts_nonneg _ Hins). unfold byteLength. nia.
Qed.

End MoreFees.

(** The sample import with its inputs swapped and other bytes, on another
    network. *)
Lemma cost_order_irrelevant_witness :
  let tx2 :=
    {| toBuffer := ["009"; "008"; "007"]%byte;
       getTransaction :=
         {| getNetworkID := 12345;
            getImportInputs := [ {| getCost := 2000 |}; {| getCost := 1000 |} ] |} |} in
  length (toBuffer Samples.fujiImport) = length (toBuffer tx2)
  /\ (getImportInputs (getTransaction Samples.fujiImport)
        ≡ₚ getImportInputs (getTransaction tx2))
  /\ @costImportTx Samples.constants Samples.fujiImport = @costImportTx Samples.constants tx2.
Proof.
  simpl. split; [reflexivity|]. split; [apply Permutation_swap|].
  apply (@cost_order_irrelevant Samples.constants); [reflexivity|apply Permutation_swap].
Defined.

(** The bounds at the sample import under the sample configuration. *)
Lemma cost_lower_bound_witness :
  @Spec.byteGasRate Samples.constants 1 = Some 1
  /\ Forall (fun input => 0 <= getCost input)
       (getImportInputs (getTransaction Samples.fujiImport))
  /\ exists bytesCost cost,
       @calcBytesCost Samples.constants (byteLength (toBuffer Samples.fujiImport))
       = Return bytesCost
       /\ @costImportTx Samples.constants Samples.fujiImport = Return cost
       /\ 0 <= bytesCost <= cost.
Proof.
  assert (Hins : Forall (fun input => 0 <= getCost input)
            (getImportInputs (getTransaction Samples.fujiImport))).
  { repeat constructor; simpl; lia. }
  split; [vm_compute; reflexivity|]. split; [exact Hins|].
  apply (@cost_lower_bound Samples.constants Samples.fujiImport 1);
    [vm_compute; reflexivity|lia|exact Hins].
Defined.

(** ** Human-readable prefixes, again *)

Section MoreHRP.

Context `{Constants}.

Lemma getPreferredHRP_number (n : Z) :
  getPreferredHRP (Some n) = Some (default FallbackHRP (NetworkIDToHRP_entries !! n)).
Proof.
  unfold getPreferredHRP, inNetworkIDToHRP. rewrite NetworkIDToHRP_number.
  destruct (NetworkIDToHRP_entries !! n) as [hrp|].
  - rewrite bool_decide_eq_true_2 by eauto. reflexivity.
  - rewrite bool_decide_eq_false_2 by (intros [? ?]; discriminate).
    rewrite bool_decide_eq_false_2 by discriminate. reflexivity.
Qed.

Lemma getPreferredHRP_omitted :
  getPreferredHRP None = NetworkIDToHRP_entries !! DefaultNetworkID.
Proof.
  unfold getPreferredHRP, inNetworkIDToHRP. rewrite NetworkIDToHRP_undefined.
  rewrite bool_decide_eq_false_2 by (intros [? ?]; discriminate).
  rewrite bool_decide_eq_true_2 by reflexivity.
  apply NetworkIDToHRP_number.
Qed.

(** X10: for a number [getPreferredHRP] always returns a string; for an
    omitted argument it returns a string exactly when the default network
    id is a key of the table, and then the same string as for the default
    id itself; when the default id is not a key, the omitted argument gives
    [undefined] although the default id given as a number gives the
    fallback. Every string returned is the fallback or a value of the
    table. *)
Theorem getPreferredHRP_defined :
  (forall n, is_Some (getPreferredHRP (Some n)))
  /\ (is_Some (getPreferredHRP None) <-> is_Some (NetworkIDToHRP_entries !! DefaultNetworkID))
  /\ (is_Some (NetworkIDToHRP_entries !! DefaultNetworkID) ->
      getPreferredHRP None = getPreferredHRP (Some DefaultNetworkID))
  /\ (NetworkIDToHRP_entries !! DefaultNetworkID = None ->
      getPreferredHRP None = None
      /\ getPreferredHRP (Some DefaultNetworkID) = Some FallbackHRP)
  /\ (forall id hrp, getPreferredHRP id = Some hrp ->
      hrp = FallbackHRP \/ exists n, NetworkIDToHRP_entries !! n = Some hrp).
Proof.
  split; [intros n; rewrite getPreferredHRP_number; eauto|].
  split; [rewrite getPreferredHRP_omitted; reflexivity|].
  split.
  { intros [hrp Hd]. rewrite getPreferredHRP_omitted, getPreferredHRP_number, Hd.
    reflexivity. }
  split.
  { intros Hd. rewrite getPreferredHRP_omitted, getPreferredHRP_number, Hd.
    split; reflexivity. }
  intros [n|] hrp.
  - rewrite getPreferredHRP_number.
    destruct (NetworkIDToHRP_entries !! n) as [hrp'|] eqn:E; simpl; intros [= <-]; eauto.
  - rewrite getPreferredHRP_omitted. eauto.
Qed.

End MoreHRP.

(** ** The middleware over a run of calls *)

Section Runs.

Context {API : Type} `{Members API}.

Lemma run_cons (this : AVACore API) (c : Call API) (cs : list (Call API)) :
  run this (c :: cs) = run (step this c) cs.
Proof. reflexivity. Qed.

Lemma step_own_is_Some (this : AVACore API) (c : Call API) (label : string) :
  is_Some (own (apis (step this c)) !! label)
  <-> is_Some (own (apis this) !! label) \/ (label <> "__proto__" /\ registers label c).
Proof.
  destruct c as [ip' port' protocol'|apiName F bp]; simpl.
  - tauto.
  - rewrite addAPI_stored. unfold dictSet. case_bool_decide as Hp; simpl.
    + split; [auto|]. intros [Hs|[Hl Hr]]; [exact Hs|congruence].
    + rewrite lookup_insert. case_decide as Hl.
      * split; [intros _; right; split; congruence|eauto].
      * split; [tauto|]. intros [Hs|[_ Hr]]; [exact Hs|contradiction].
Qed.

Lemma run_own_is_Some (cs : list (Call API)) (this : AVACore API) (label : string) :
  is_Some (own (apis (run this cs)) !! label)
  <-> is_Some (own (apis this) !! label)
      \/ (label <> "__proto__" /\ Spec.registered label cs).
Proof.
  unfold Spec.registered. revert this. induction cs as [|c cs IH]; intros this.
  - rewrite Exists_nil. simpl. tauto.
  - rewrite run_cons, IH, step_own_is_Some, Exists_cons. tauto.
Qed.

Lemma inherits_dec (d : Dict API) (name : string) :
  Spec.inherits d name \/ ~ Spec.inherits d name.
Proof.
  unfold Spec.inherits.
  destruct (decide (name = "__proto__")) as [|Hn]; [auto|].
  destruct (decide (name ∈ objectPrototypeMembers)) as [|Hin]; [auto|].
  destruct (prototype d) as [inst|] eqn:Hp.
  - destruct (hasMember inst name) eqn:Hm; [eauto 6|].
    right. intros [?|[?|(i & [= <-] & ?)]]; congruence.
  - right. intros [?|[?|(i & ? & ?)]]; congruence.
Qed.

(** A read finds something exactly under an own property or an inherited
    member. *)
Lemma dictGet_is_Some (d : Dict API) (name : string) :
  is_Some (dictGet d name)
  <-> (name <> "__proto__" /\ is_Some (own d !! name)) \/ Spec.inherits d name.
Proof.
  destruct (decide (name = "__proto__")) as [->|Hn].
  - split; [intros _; right; left; reflexivity|].
    intros _. unfold dictGet. simpl. destruct (prototype d); eauto.
  - destruct (own d !! name) as [inst|] eqn:Hown.
    + split; [intros _; left; eauto|].
      intros _. unfold dictGet. rewrite bool_decide_eq_false_2 by exact Hn.
      rewrite Hown. eauto.
    + destruct (dictGet_not_own d name Hn Hown) as [Hnone Hsome]. split.
      * intros Hs. right. destruct (inherits_dec d name) as [Hi|Hi]; [exact Hi|].
        rewrite (Hnone Hi) in Hs. destruct Hs; discriminate.
      * intros [[_ [? ?]]|Hi]; [discriminate|].
        destruct (Hsome Hi) as (v & -> & _). eauto.
Qed.

(** X11: after any run of calls on a new middleware, [api label] is
    defined exactly for the labels some [addAPI] of the run registered and
    for the names of the members the registry inherits. *)
Theorem registered_iff (ip' : string) (port' : Z) (protocol' : option string)
    (cs : list (Call API)) (label : string) :
  is_Some (api (run (constructor ip' port' protocol') cs) label)
  <-> Spec.registered label cs
      \/ Spec.inherits (apis (run (constructor ip' port' protocol') cs)) label.
Proof.
  unfold api. rewrite dictGet_is_Some, run_own_is_Some. split.
  - intros [[Hn [He|[_ Hr]]]|Hi]; [|left; exact Hr|right; exact Hi].
    simpl in He. rewrite lookup_empty in He. destruct He; discriminate.
  - intros [Hr|Hi]; [|right; exact Hi].
    destruct (decide (label = "__proto__")) as [->|Hn].
    + right. left. reflexivity.
    + left. split; [exact Hn|]. right. split; assumption.
Qed.

Lemma step_address (this : AVACore API) (c : Call API) :
  ~ Spec.setsAddress c ->
  getIP (step this c) = getIP this /\ getPort (step this c) = getPort this
  /\ getProtocol (step this c) = getProtocol this /\ getURL (step this c) = getURL this.
Proof.
  destruct c as [ip' port' protocol'|apiName F bp]; simpl; intros Hc.
  - contradiction Hc. exact I.
  - destruct bp; repeat split.
Qed.

Lemma run_address (cs : list (Call API)) (this : AVACore API) :
  Forall (fun c => ~ Spec.setsAddress c) cs ->
  getIP (run this cs) = getIP this /\ getPort (run this cs) = getPort this
  /\ getProtocol (run this cs) = getProtocol this /\ getURL (run this cs) = getURL this.
Proof.
  intros Hcs. revert this. induction Hcs as [|c cs Hc _ IH]; intros this.
  - repeat split.
  - rewrite run_cons. destruct (IH (step this c)) as (-> & -> & -> & ->).
    apply step_address, Hc.
Qed.

(** X12: the address last set is the one the getters report: registering
    modules after [setAddress ip port proto] changes none of the four. *)
Theorem address_last_set_wins (this : AVACore API) (ip' : string) (port' : Z)
    (protocol' : option string) (cs : list (Call API)) :
  Forall (fun c => ~ Spec.setsAddress c) cs ->
  let this' := run (setAddress this ip' port' protocol') cs in
  getIP this' = Some ip'
  /\ getPort this' = Some port'
  /\ getProtocol this' = Some (default "http" protocol')
  /\ getURL this' = Some (Spec.baseURL (default "http" protocol') ip' port').
Proof.
  intros Hcs. cbv zeta.
  destruct (run_address cs (setAddress this ip' port' protocol') Hcs) as (-> & -> & -> & ->).
  repeat split. unfold getURL. simpl. rewrite url_concat. reflexivity.
Qed.

(** X13: in every state a run of calls on a new middleware reaches, a
    request without a transport override is addressed to the URL [getURL]
    reports, with response type 'text'. *)
Theorem default_target_is_url (ip' : string) (port' : Z) (protocol' : option string)
    (cs : list (Call API)) (m u : string) (g p h : Val) :
  let this := run (constructor ip' port' protocol') cs in
  let config := requestConfig this m u g p h None in
  is_Some (getURL this)
  /\ config !! "baseURL" = VString <$> getURL this
  /\ config !! "responseType" = Some (VString "text").
Proof.
  cbv zeta.
  destruct (consistent_run cs (@constructor API ip' port' protocol')
              (consistent_setAddress _ _ _ _)) as (i & q & pr & Hi & Hq & Hpr & Hu).
  split; [rewrite Hu; eauto|].
  unfold requestConfig. cbv zeta. split.
  - rewrite !lookup_insert_ne by discriminate. rewrite lookup_insert_eq.
    unfold getIP, getPort, getProtocol in Hi, Hq, Hpr. rewrite Hu, Hi, Hq, Hpr.
    simpl. rewrite url_concat. reflexivity.
  - rewrite !lookup_insert_ne by discriminate. apply lookup_singleton_eq.
Qed.

End Runs.

(** Two registrations after an address change. *)
Lemma address_last_set_wins_witness :
  let later : list (Call nat) :=
    [CallAddAPI "X" (fun _ _ => 1%nat) None; CallAddAPI "P" (fun _ _ => 2%nat) (Some "/ext/P")] in
  Forall (fun c => ~ Spec.setsAddress c) later
  /\ getURL (run (setAddress (constructor "127.0.0.1" 9650 None) "node.example" 443
                   (Some "https")) later)
     = Some "https://node.example:443".
Proof.
  simpl.
  assert (Hlater : Forall (fun c : Call nat => ~ Spec.setsAddress c)
            [CallAddAPI "X" (fun _ _ => 1%nat) None;
             CallAddAPI "P" (fun _ _ => 2%nat) (Some "/ext/P")]).
  { repeat constructor; simpl; tauto. }
  split; [exact Hlater|].
  destruct (address_last_set_wins (constructor "127.0.0.1" 9650 None) "node.example" 443
              (Some "https") _ Hlater) as (_ & _ & _ & Hurl).
  etransitivity; [exact Hurl|]. vm_compute. reflexivity.
Defined.

(** ** Wrappers and overrides *)

Section MoreRequests.

Context {API : Type} `{Axios}.

(** X14: an override object an earlier call has written its five fields
    into gives the same later request, and the same outcome, as the
    override before that call: nothing of the earlier call is left in a
    reused override. *)
Theorem override_reuse (this : AVACore API) (m1 u1 m2 u2 : string)
    (g1 p1 h1 g2 p2 h2 : Val) (override : AxiosRequestConfig) :
  let written := requestConfig this m1 u1 g1 p1 h1 (Some override) in
  requestConfig this m2 u2 g2 p2 h2 (Some written)
  = requestConfig this m2 u2 g2 p2 h2 (Some override)
  /\ _request this m2 u2 g2 p2 h2 (Some written) = _request this m2 u2 g2 p2 h2 (Some override).
Proof.
  cbv zeta.
  assert (E : requestConfig this m2 u2 g2 p2 h2
                (Some (requestConfig this m1 u1 g1 p1 h1 (Some override)))
              = requestConfig this m2 u2 g2 p2 h2 (Some override)).
  { unfold requestConfig. apply map_eq. intros k.
    rewrite !lookup_insert. repeat case_decide; reflexivity. }
  split; [exact E|]. unfold _request. rewrite E. reflexivity.
Qed.

Lemma request_issues (this : AVACore API) (m u : string) (g p h : Val)
    (c : option AxiosRequestConfig) :
  Spec.issues (_request this m u g p h c) m u g p.
Proof.
  exists (requestConfig this m u g p h c).
  destruct (requestConfig_set this m u g p h c) as (Hu & Hm & _ & Hd & Hp).
  repeat split; assumption.
Qed.

(** X15: whatever override a wrapper is given, also one that names a
    method, url, params or data of its own, the wrapper issues one request
    with its own verb, the url and query params of the call, and as body
    the empty object ([get], [delete]) or the body of the call ([post],
    [put], [patch]). *)
Theorem wrappers_fix_verb (this : AVACore API) (u : string) (g p h : Val)
    (c : option AxiosRequestConfig) :
  Spec.issues (get this u g h c) "GET" u g emptyObject
  /\ Spec.issues (delete this u g h c) "DELETE" u g emptyObject
  /\ Spec.issues (post this u g p h c) "POST" u g p
  /\ Spec.issues (put this u g p h c) "PUT" u g p
  /\ Spec.issues (patch this u g p h c) "PATCH" u g p.
Proof.
  unfold get, delete, post, put, patch.
  repeat (split; [apply request_issues|]). apply request_issues.
Qed.

End MoreRequests.
